(** * publish_experiment.py: the sweep driver and its report

    A shallow embedding of [grpc_p2p_client/publish_experiment.py].  The
    script runs an external publish client once per (datasize, frequency)
    pair, runs an external latency utility whose output is captured in
    [process.out], and aggregates that output block by block into
    [computed.out].

    Conventions of the embedding:
    - a Python [str] is a [string]; a character is a code point below 256;
    - a Python [int] is a [Z]; a Python [float] is an IEEE 754 binary64
      value, a [spec_float] at precision 53 and maximal exponent 1024, with
      the arithmetic of [SpecFloat] (round to nearest, ties to even);
    - an exception that the script does not catch ends the run: a
      computation returns [Ok v] or [Raise e], and the state reached when
      the exception was raised is kept;
    - the file system is a finite map from file names to contents: the
      bytes that a subprocess left, the text that the script wrote.  The
      script reads one file, [process.out], which a subprocess writes: it
      may be missing, and its bytes may not be text in the encoding of the
      locale, which is a parameter of the driver;
    - the lines that the script prints and the command lines of the
      subprocesses are kept in order.  What a subprocess prints on the
      standard output that it shares with the script is not kept: where it
      falls among the lines of the script depends on how the output of
      the script is buffered;
    - the two external programs are a parameter of the driver: any
      function from a command line, the file its output is redirected to
      and the files it finds, to the files it leaves.  They are taken to
      start.

    The parameter sets of the script (three datasizes, three frequencies,
    the count 5) are the value [script_sweep] of a record that the phases
    take as an argument, so that the properties are stated for all
    parameter sets. *)

From Stdlib Require Import ZArith Ascii String List Lia.
From Corelib Require Import SpecFloat.
From stdpp Require Import base option list gmap strings pretty.

Local Open Scope Z_scope.

(** ** Exceptions *)

Inductive exn : Type :=
  | ValueError
  | IndexError
  | ZeroDivisionError
  | OverflowError
  | FileNotFoundError
  | UnicodeDecodeError.

Inductive res (A : Type) : Type :=
  | Ok (a : A)
  | Raise (e : exn).
Arguments Ok {A} a.
Arguments Raise {A} e.

Global Instance res_ret : MRet res := @Ok.
Global Instance res_bind : MBind res := fun A B k m =>
  match m with
  | Ok a => k a
  | Raise e => Raise e
  end.

(** ** The Python built-ins the script calls *)

Module Py.

(** The newline character and the one-character strings built from codes. *)
Definition nl : string := String "010" "".

(** [str.isspace] on one code point below 256: tab to carriage return, the
    four separators 28..31, space, next-line (133) and no-break space (160). *)
Definition isspace (c : ascii) : bool :=
  match N_of_ascii c with
  | 9 | 10 | 11 | 12 | 13 | 28 | 29 | 30 | 31 | 32 | 133 | 160 => true
  | _ => false
  end%N.

(** [str.lstrip()], [str.rstrip()] and [str.strip()] with no argument. *)
Fixpoint lstrip (s : string) : string :=
  match s with
  | EmptyString => EmptyString
  | String c r => if isspace c then lstrip r else s
  end.

Fixpoint rstrip (s : string) : string :=
  match s with
  | EmptyString => EmptyString
  | String c r =>
      match rstrip r with
      | EmptyString => if isspace c then EmptyString else String c EmptyString
      | t => String c t
      end
  end.

Definition strip (s : string) : string := lstrip (rstrip s).

(** Truth value of a [str]: the empty string is false. *)
Definition truthy (s : string) : bool :=
  match s with
  | EmptyString => false
  | String _ _ => true
  end.

(** [str.startswith(prefix)]. *)
Definition startswith (s p : string) : bool := String.prefix p s.

(** [str.split()] with no argument: the maximal runs of characters that are
    not white space.  [cur] is the run being read, last character first. *)
Fixpoint split_go (cur : string) (s : string) : list string :=
  match s with
  | EmptyString => if truthy cur then [String.rev cur] else []
  | String c r =>
      if isspace c
      then (if truthy cur then [String.rev cur] else []) ++ split_go EmptyString r
      else split_go (String c cur) r
  end.

Definition split (s : string) : list string := split_go EmptyString s.

(** [sep.join(parts)]. *)
Fixpoint join (sep : string) (parts : list string) : string :=
  match parts with
  | [] => EmptyString
  | [p] => p
  | p :: rest => p +:+ sep +:+ join sep rest
  end.

(** [parts[i]] for a non-negative [i]: [IndexError] past the end. *)
Definition index (parts : list string) (i : nat) : res string :=
  match parts !! i with
  | Some p => Ok p
  | None => Raise IndexError
  end.

(** [l[start:stop]] for non-negative bounds: the bounds are clamped. *)
Definition slice {A : Type} (l : list A) (start stop : nat) : list A :=
  take (stop - start) (drop start l).

(** [str(n)] for an [int]. *)
Definition str (n : Z) : string := pretty n.

(** [itertools.product(xs, ys)]: the first list varies slowest. *)
Definition product {A B : Type} (xs : list A) (ys : list B) : list (A * B) :=
  x ← xs; y ← ys; [(x, y)].

(** *** Floating point *)

Definition prec : Z := 53.
Definition emax : Z := 1024.

Definition is_digit (c : ascii) : bool :=
  let n := N_of_ascii c in ((48 <=? n) && (n <=? 57))%N.

Definition digit_value (c : ascii) : Z := Z.of_N (N_of_ascii c) - 48.

(** The longest prefix of decimal digits, and what follows it. *)
Fixpoint span_digits (s : string) : string * string :=
  match s with
  | EmptyString => (EmptyString, EmptyString)
  | String c r =>
      if is_digit c
      then let '(d, t) := span_digits r in (String c d, t)
      else (EmptyString, s)
  end.

Fixpoint int_of_digits (acc : Z) (s : string) : Z :=
  match s with
  | EmptyString => acc
  | String c r => int_of_digits (10 * acc + digit_value c) r
  end.

Definition parse_sign (s : string) : bool * string :=
  match s with
  | String "-" r => (true, r)
  | String "+" r => (false, r)
  | _ => (false, s)
  end.

(** An underscore may stand between two digits only; they are removed
    before the number is read.  [prev] is the character just read. *)
Fixpoint drop_underscores (prev : ascii) (s : string) : option string :=
  match s with
  | EmptyString => if Ascii.eqb prev "_" then None else Some EmptyString
  | String c r =>
      if Ascii.eqb c "_"
      then (if is_digit prev then drop_underscores c r else None)
      else if Ascii.eqb prev "_" && negb (is_digit c)
      then None
      else String c <$> drop_underscores c r
  end.

Definition lower_char (c : ascii) : ascii :=
  let n := N_of_ascii c in
  if ((65 <=? n) && (n <=? 90))%N then ascii_of_N (n + 32) else c.

Fixpoint lower (s : string) : string :=
  match s with
  | EmptyString => EmptyString
  | String c r => String (lower_char c) (lower r)
  end.

(** A decimal literal without its sign: digits with an optional point and
    an optional exponent, at least one digit before the exponent.  The
    result [(m, e)] stands for [m * 10^e]. *)
Definition parse_exponent (s : string) : option Z :=
  let '(neg, r) := parse_sign s in
  let '(d, t) := span_digits r in
  if truthy d && negb (truthy t)
  then Some (if neg then - int_of_digits 0 d else int_of_digits 0 d)
  else None.

Definition parse_decimal (s : string) : option (Z * Z) :=
  let '(ip, r1) := span_digits s in
  let '(fp, r2) :=
    match r1 with
    | String "." r => span_digits r
    | _ => (EmptyString, r1)
    end in
  if truthy ip || truthy fp then
    let m := int_of_digits 0 (ip +:+ fp) in
    let shift := Z.of_nat (String.length fp) in
    match r2 with
    | EmptyString => Some (m, - shift)
    | String c r3 =>
        if Ascii.eqb c "e" || Ascii.eqb c "E"
        then x ← parse_exponent r3; Some (m, x - shift)
        else None
    end
  else None.

(** The binary64 value nearest to [m * 10^e] (ties to even), with the sign
    [neg]; too large a value is an infinity. *)
Definition float_of_decimal (neg : bool) (m e : Z) : spec_float :=
  match m with
  | Zpos p =>
      if 0 <=? e
      then binary_normalize prec emax (cond_Zopp neg (Zpos p * 10 ^ e)) 0 neg
      else
        let '(q, e', l) := SFdiv_core_binary prec emax (Zpos p) 0 (10 ^ (- e)) 0 in
        binary_round_aux prec emax neg q e' l
  | _ => S754_zero neg
  end.

(** The white space that [float] trims: of the characters below 128, tab
    to carriage return and the space only; next-line and no-break space. *)
Definition float_space (c : ascii) : bool :=
  match N_of_ascii c with
  | 9 | 10 | 11 | 12 | 13 | 32 | 133 | 160 => true
  | _ => false
  end%N.

Fixpoint float_lstrip (s : string) : string :=
  match s with
  | EmptyString => EmptyString
  | String c r => if float_space c then float_lstrip r else s
  end.

Fixpoint float_rstrip (s : string) : string :=
  match s with
  | EmptyString => EmptyString
  | String c r =>
      match float_rstrip r with
      | EmptyString => if float_space c then EmptyString else String c EmptyString
      | t => String c t
      end
  end.

(** [float(s)] for a [str]. *)
Definition float (s : string) : res spec_float :=
  match drop_underscores "000" (float_lstrip (float_rstrip s)) with
  | None => Raise ValueError
  | Some t =>
      let '(neg, u) := parse_sign t in
      let w := lower u in
      if String.eqb w "inf" || String.eqb w "infinity" then Ok (S754_infinity neg)
      else if String.eqb w "nan" then Ok S754_nan
      else
        match parse_decimal u with
        | Some (m, e) => Ok (float_of_decimal neg m e)
        | None => Raise ValueError
        end
  end.

(** A number: the script's accumulators start as the [int] 0 and become
    floats on the first addition. *)
Inductive num : Type :=
  | Int (z : Z)
  | Float (x : spec_float).

(** Conversion of an [int] to a [float], as arithmetic does it. *)
Definition float_of_int (z : Z) : res spec_float :=
  match binary_normalize prec emax z 0 false with
  | S754_infinity _ => Raise OverflowError
  | x => Ok x
  end.

Definition to_float (a : num) : res spec_float :=
  match a with
  | Int z => float_of_int z
  | Float x => Ok x
  end.

(** [a + b]. *)
Definition add (a b : num) : res num :=
  match a, b with
  | Int x, Int y => Ok (Int (x + y))
  | _, _ =>
      x ← to_float a;
      y ← to_float b;
      Ok (Float (SFadd prec emax x y))
  end.

Definition is_zero (x : spec_float) : bool :=
  match x with
  | S754_zero _ => true
  | _ => false
  end.

(** [a / b] for two [int]s: the quotient rounded once. *)
Definition int_truediv (x y : Z) : res spec_float :=
  if y =? 0 then Raise ZeroDivisionError
  else
    let neg := xorb (x <? 0) (y <? 0) in
    if x =? 0 then Ok (S754_zero neg)
    else
      let '(q, e', l) := SFdiv_core_binary prec emax (Z.abs x) 0 (Z.abs y) 0 in
      match binary_round_aux prec emax neg q e' l with
      | S754_infinity _ => Raise OverflowError
      | r => Ok r
      end.

(** [a / b]. *)
Definition truediv (a b : num) : res num :=
  match a, b with
  | Int x, Int y => r ← int_truediv x y; Ok (Float r)
  | _, _ =>
      x ← to_float a;
      y ← to_float b;
      if is_zero y then Raise ZeroDivisionError
      else Ok (Float (SFdiv prec emax x y))
  end.

(** The two digits of [n mod 100]. *)
Definition two_digits (n : Z) : string :=
  String (pretty_N_char (Z.to_N ((n `mod` 100) `div` 10)))
    (String (pretty_N_char (Z.to_N (n `mod` 10))) EmptyString).

(** [n / d] rounded to the nearest integer, ties to even ([0 <= n], [0 < d]). *)
Definition div_half_even (n d : Z) : Z :=
  let q := n `div` d in
  let r := n `mod` d in
  match 2 * r ?= d with
  | Lt => q
  | Gt => q + 1
  | Eq => if Z.even q then q else q + 1
  end.

(** The hundredths in [m * 2^e], rounded to nearest, ties to even. *)
Definition hundredths (m : positive) (e : Z) : Z :=
  if 0 <=? e then Zpos m * 100 * 2 ^ e
  else div_half_even (Zpos m * 100) (2 ^ (- e)).

Definition fixed2 (neg : bool) (h : Z) : string :=
  (if neg then "-" else "") +:+ pretty (h `div` 100) +:+ "." +:+ two_digits h.

(** [format(x, ".2f")] for a [float]. *)
Definition format_2f_float (x : spec_float) : string :=
  match x with
  | S754_nan => "nan"
  | S754_infinity neg => if neg then "-inf" else "inf"
  | S754_zero neg => fixed2 neg 0
  | S754_finite neg m e => fixed2 neg (hundredths m e)
  end.

(** [format(a, ".2f")]: an [int] is converted first. *)
Definition format_2f (a : num) : res string :=
  x ← to_float a; Ok (format_2f_float x).

End Py.

(** ** The world the script runs in *)

(** The files by name, the lines the script printed on its standard
    output, and the command line of every subprocess started, oldest
    first. *)
Record world : Type := World {
  files : gmap string string;
  console : list string;
  spawned : list (list string);
}.

(** An external program: from its command line, the name of the file
    that its standard output and error are redirected to, if any, and the
    files it finds, the files it leaves.  What a redirected program prints
    is in the files it leaves, under the name of the target as long as the
    program keeps the target there: it can also remove or replace it.
    The script does not look at exit codes. *)
Definition program : Type :=
  list string -> option string -> gmap string string -> gmap string string.

(** The encoding of the locale, which [open] takes for a file in text
    mode: the text of the bytes of a file, or nothing when the bytes are
    not valid in the encoding. *)
Definition decoder : Type := string -> option string.

(** A statement of the script: it changes the world and either completes
    with a value or raises. *)
Definition io (A : Type) : Type := world -> res A * world.

Global Instance io_ret : MRet io := fun A a w => (Ok a, w).

(** Sequencing: what follows an exception is not run. *)
Global Instance io_bind : MBind io := fun A B k m w =>
  match m w with
  | (Ok a, w') => k a w'
  | (Raise e, w') => (Raise e, w')
  end.

(** A pure computation that may raise, as a statement. *)
Definition lift {A : Type} (r : res A) : io A := fun w => (r, w).

(** [print(line)]: one more line on the standard output of the script. *)
Definition print (line : string) : io unit := fun w =>
  (Ok (), {| files := files w; console := console w ++ [line];
             spawned := spawned w |}).

(** [with open(name, "w") as f: f.write(text)]: the file is created or
    truncated, then written. *)
Definition write_file (name text : string) : io unit := fun w =>
  (Ok (), {| files := <[name := text]> (files w); console := console w;
             spawned := spawned w |}).

(** [f.write(text)] on a file opened with [open(name, "a")]: the file is
    created when missing, and [text] goes after what it holds. *)
Definition append_file (name text : string) : io unit := fun w =>
  (Ok (), {| files := <[name := default "" (files w !! name) +:+ text]> (files w);
             console := console w; spawned := spawned w |}).

(** [open(name, "r")] and the reading of the whole file in text mode:
    [FileNotFoundError] when there is no file of that name,
    [UnicodeDecodeError] when its bytes do not decode. *)
Definition read_file (decode : decoder) (name : string) : io string := fun w =>
  match files w !! name with
  | Some bytes =>
      match decode bytes with
      | Some text => (Ok text, w)
      | None => (Raise UnicodeDecodeError, w)
      end
  | None => (Raise FileNotFoundError, w)
  end.

(** [subprocess.run(argv)]: the child shares the standard output of the
    script.  The program is taken to start: an executable that is not
    there, for which [subprocess.run] raises, is outside the model. *)
Definition subprocess_run (exec : program) (argv : list string) : io unit := fun w =>
  (Ok (), {| files := exec argv None (files w); console := console w;
             spawned := spawned w ++ [argv] |}).

(** [with open(name, "w") as f: subprocess.run(argv, stdout=f,
    stderr=subprocess.STDOUT)]: the file is created or truncated before
    the child starts; the script writes nothing to it, so that afterwards
    the files are those that the child left. *)
Definition subprocess_run_to (exec : program) (argv : list string) (name : string)
  : io unit := fun w =>
  (Ok (), {| files := exec argv (Some name) (<[name := ""]> (files w));
             console := console w; spawned := spawned w ++ [argv] |}).

(** [for x in xs: body(x)]. *)
Fixpoint for_each {A : Type} (xs : list A) (body : A -> io unit) : io unit :=
  match xs with
  | [] => mret ()
  | x :: rest => body x ;; for_each rest body
  end.

(** ** The script *)

(** The parameter sets of the sweep. *)
Record sweep : Type := Sweep {
  datasizes : list Z;
  frequencies : list string;
  count : nat;
}.

(** The parameter sets the script defines. *)
Definition script_sweep : sweep :=
  {| datasizes := [3000; 30000; 300000];
     frequencies := ["0.5s"; "1s"; "5s"];
     count := 5 |}.

(** The command line arguments, both required. *)
Record args : Type := Args {
  tracefile : string;
  ipfile : string;
}.

Definition combinations (s : sweep) : list (Z * string) :=
  Py.product (datasizes s) (frequencies s).

(** *** Run phase *)

Definition command_template (a : args) (s : sweep) : list string :=
  [ "./p2p_client_multi_streams_publish";
    "-start-index"; "1";
    "-end-index"; "2";
    "-ipfile"; ipfile a;
    "-topic"; "topicA";
    "-count"; Py.str (Z.of_nat (count s));
    "-sleep"; "";
    "-datasize"; "";
    "-output"; "outgoing.txt" ].

(** The name of the output file of one run. *)
Definition output_name (datasize : Z) (freq : string) : string :=
  Py.str datasize +:+ "-" +:+ freq +:+ "-output.txt".

(** The three assignments into the template; the template has 17 entries,
    so the indices 12, 14 and 16 are in range. *)
Definition set_dynamic_values (template : list string) (datasize : Z) (freq : string)
  : list string :=
  let template := <[12%nat := freq]> template in
  let template := <[14%nat := Py.str datasize]> template in
  <[16%nat := output_name datasize freq]> template.

(** The loop keeps the one template list and overwrites it on every pass. *)
Fixpoint run_loop (exec : program) (template : list string)
    (combos : list (Z * string)) : io unit :=
  match combos with
  | [] => mret ()
  | (datasize, freq) :: rest =>
      let template := set_dynamic_values template datasize freq in
      print ("Running command: " +:+ Py.join " " template) ;;
      subprocess_run exec template ;;
      run_loop exec template rest
  end.

Definition run_phase (exec : program) (a : args) (s : sweep) : io unit :=
  run_loop exec (command_template a s) (combinations s).

(** *** Trace reduction phase *)

Definition command_process (a : args) : list string :=
  [ "python3";
    "../../optimum-infra/utilities/compute-messages-latency-from-trace.py";
    "-i"; tracefile a ].

Definition trace_phase (exec : program) (a : args) : io unit :=
  print ("Running command: " +:+ Py.join " " (command_process a)) ;;
  subprocess_run_to exec (command_process a) "process.out".

(** *** Aggregation phase *)

(** [f.readlines()] on a file opened in text mode: a line ends after its
    newline; a carriage return, alone or before a newline, is read as a
    newline; the last line may lack one. *)
Fixpoint readlines (text : string) : list string :=
  match text with
  | EmptyString => []
  | String c r =>
      if Ascii.eqb c "010" then Py.nl :: readlines r
      else if Ascii.eqb c "013" then
        match r with
        | String c' r' =>
            if Ascii.eqb c' "010" then Py.nl :: readlines r'
            else Py.nl :: readlines r
        | EmptyString => [Py.nl]
        end
      else
        match readlines r with
        | [] => [String c EmptyString]
        | line :: lines => String c line :: lines
        end
  end.

(** The condition of the list comprehension that keeps the data lines. *)
Definition is_data_line (line : string) : bool :=
  Py.truthy (Py.strip line)
  && negb (Py.startswith line "#")
  && negb (Py.startswith line "msgid").

Definition data_lines (all_lines : list string) : list string :=
  List.filter is_data_line all_lines.

(** [f"{s:10}"] for a [str]: padded on the right with spaces to width 10. *)
Definition pad10 (s : string) : string :=
  s +:+ string_of_list_ascii (replicate (10 - String.length s) " "%char).

Definition tab : string := String "009" "".

(** The header row that starts [computed.out]. *)
Definition header : string :=
  pad10 "msgid" +:+ tab +:+ pad10 "n" +:+ tab +:+ pad10 "mean" +:+ tab
  +:+ pad10 "p90" +:+ tab +:+ pad10 "p95" +:+ Py.nl.

(** The three columns read from one line, in the order the script reads
    them. *)
Definition parse_line (line : string) : res (spec_float * spec_float * spec_float) :=
  let parts := Py.split line in
  mean ← Py.index parts 2 ≫= Py.float;
  p90 ← Py.index parts 3 ≫= Py.float;
  p95 ← Py.index parts 4 ≫= Py.float;
  Ok (mean, p90, p95).

(** The first loop over the lines of a block: the running totals. *)
Fixpoint totals (total_mean total_p90 total_p95 : Py.num) (lines : list string)
  : res (Py.num * Py.num * Py.num) :=
  match lines with
  | [] => Ok (total_mean, total_p90, total_p95)
  | line :: rest =>
      '(mean, p90, p95) ← parse_line line;
      total_mean ← Py.add total_mean (Py.Float mean);
      total_p90 ← Py.add total_p90 (Py.Float p90);
      total_p95 ← Py.add total_p95 (Py.Float p95);
      totals total_mean total_p90 total_p95 rest
  end.

(** [total / count_lines if count_lines else 0]. *)
Definition average (total : Py.num) (count_lines : nat) : res Py.num :=
  if (count_lines =? 0)%nat then Ok (Py.Int 0)
  else Py.truediv total (Py.Int (Z.of_nat count_lines)).

(** The averages of a block, computed before anything of it is written. *)
Definition averages (iteration_lines : list string) : res (Py.num * Py.num * Py.num) :=
  '(total_mean, total_p90, total_p95) ←
    totals (Py.Int 0) (Py.Int 0) (Py.Int 0) iteration_lines;
  let count_lines := length iteration_lines in
  avg_mean ← average total_mean count_lines;
  avg_p90 ← average total_p90 count_lines;
  avg_p95 ← average total_p95 count_lines;
  Ok (avg_mean, avg_p90, avg_p95).

(** A data line as the report holds it. *)
Definition raw_line (line : string) : string := Py.rstrip line +:+ Py.nl.

(** The summary comment of a block and the blank line after it. *)
Definition summary (datasize : Z) (freq : string) (avg_mean avg_p90 avg_p95 : Py.num)
  : res string :=
  m ← Py.format_2f avg_mean;
  p90 ← Py.format_2f avg_p90;
  p95 ← Py.format_2f avg_p95;
  Ok ("# datasize=" +:+ Py.str datasize +:+ " freq=" +:+ freq
      +:+ " avg_mean=" +:+ m +:+ " avg_p90=" +:+ p90 +:+ " avg_p95=" +:+ p95
      +:+ Py.nl +:+ Py.nl).

(** The lines of [data] that the pass number [iteration] takes. *)
Definition iteration_lines (s : sweep) (data : list string) (iteration : nat)
  : list string :=
  let start_idx := (iteration * count s)%nat in
  let end_idx := (start_idx + count s)%nat in
  Py.slice data start_idx end_idx.

(** One pass of the aggregation loop. *)
Definition aggregate_block (s : sweep) (data : list string) (iteration : nat)
    (datasize : Z) (freq : string) : io unit :=
  let lines := iteration_lines s data iteration in
  '(avg_mean, avg_p90, avg_p95) ← lift (averages lines);
  for_each lines (fun line => append_file "computed.out" (raw_line line)) ;;
  text ← lift (summary datasize freq avg_mean avg_p90 avg_p95);
  append_file "computed.out" text ;;
  print ("Appended averages to trace file: datasize=" +:+ Py.str datasize
         +:+ ", freq=" +:+ freq).

(** The aggregation loop with its counter. *)
Fixpoint aggregate_loop (s : sweep) (data : list string) (iteration : nat)
    (combos : list (Z * string)) : io unit :=
  match combos with
  | [] => mret ()
  | (datasize, freq) :: rest =>
      aggregate_block s data iteration datasize freq ;;
      aggregate_loop s data (S iteration) rest
  end.

(** From the lines read from [process.out] to the end of the script. *)
Definition aggregate (s : sweep) (all_lines : list string) : io unit :=
  let data := data_lines all_lines in
  write_file "computed.out" header ;;
  aggregate_loop s data 0 (combinations s).

Definition aggregation_phase (decode : decoder) (s : sweep) : io unit :=
  text ← read_file decode "process.out";
  aggregate s (readlines text).

(** *** The whole script *)

Definition main (exec : program) (decode : decoder) (a : args) (s : sweep)
  : io unit :=
  run_phase exec a s ;;
  trace_phase exec a ;;
  aggregation_phase decode s.

(** ** Views of the script used to state its properties *)

(** The strings of a list one after another. *)
Definition cat (parts : list string) : string := foldr String.append "" parts.

(** The world when the subprocesses have run: after the run phase and the
    trace reduction phase, before [process.out] is opened for reading. *)
Definition after_subprocesses (exec : program) (a : args) (s : sweep) (w : world)
  : world :=
  (trace_phase exec a (run_phase exec a s w).2).2.

(** The line a completed pass prints. *)
Definition progress (p : Z * string) : string :=
  "Appended averages to trace file: datasize=" +:+ Py.str p.1
  +:+ ", freq=" +:+ p.2.

(** What pass number [iteration] appends to [computed.out] when it
    completes: the lines of its block, then the summary. *)
Definition block_report (s : sweep) (data : list string) (iteration : nat)
    (datasize : Z) (freq : string) : res string :=
  let lines := iteration_lines s data iteration in
  '(avg_mean, avg_p90, avg_p95) ← averages lines;
  text ← summary datasize freq avg_mean avg_p90 avg_p95;
  Ok (cat (raw_line <$> lines) +:+ text).

(** The passes from number [iteration] on: the reports of those that
    complete, and the exception that ends the loop, if one is raised. *)
Fixpoint reports (s : sweep) (data : list string) (iteration : nat)
    (combos : list (Z * string)) : list string * option exn :=
  match combos with
  | [] => ([], None)
  | (datasize, freq) :: rest =>
      match block_report s data iteration datasize freq with
      | Ok text =>
          let '(texts, e) := reports s data (S iteration) rest in
          (text :: texts, e)
      | Raise e => ([], Some e)
      end
  end.

(** The data lines that pass number [iteration] writes. *)
Definition block_rows (s : sweep) (data : list string) (iteration : nat)
  : list string :=
  raw_line <$> iteration_lines s data iteration.

(** The number of data lines the loop can take. *)
Definition capacity (s : sweep) : nat :=
  (length (datasizes s) * length (frequencies s) * count s)%nat.

(** The total of a column as the loop builds it: from the [int] 0, one
    value added after the other. *)
Definition running_total (values : list spec_float) : res Py.num :=
  foldl (λ acc x, total ← acc; Py.add total (Py.Float x)) (Ok (Py.Int 0)) values.

(** A number whose float value is neither an infinity nor a NaN. *)
Definition is_finite (a : Py.num) : bool :=
  match Py.to_float a with
  | Ok (S754_zero _) | Ok (S754_finite _ _ _) => true
  | _ => false
  end.

Fixpoint all_digits (s : string) : bool :=
  match s with
  | EmptyString => true
  | String c r => Py.is_digit c && all_digits r
  end.

(** A point and exactly two digits. *)
Definition point_two (s : string) : bool :=
  match s with
  | String p (String a (String b EmptyString)) =>
      Ascii.eqb p "." && Py.is_digit a && Py.is_digit b
  | _ => false
  end.

(** Digits, at least one, then a point and exactly two digits. *)
Fixpoint digits_point_two (s : string) : bool :=
  match s with
  | EmptyString => false
  | String c r => Py.is_digit c && (point_two r || digits_point_two r)
  end.

(** A decimal numeral with exactly two decimal places, with or without a
    minus sign. *)
Definition two_decimal_places (s : string) : bool :=
  match s with
  | EmptyString => false
  | String c r =>
      if Ascii.eqb c "-" then digits_point_two r else digits_point_two s
  end.

(** No newline and no carriage return in [s]. *)
Fixpoint no_break (s : string) : bool :=
  match s with
  | EmptyString => true
  | String c r => negb (Ascii.eqb c "010") && negb (Ascii.eqb c "013") && no_break r
  end.

Fixpoint all_space (s : string) : bool :=
  match s with
  | EmptyString => true
  | String c r => Py.isspace c && all_space r
  end.

Fixpoint no_space (s : string) : bool :=
  match s with
  | EmptyString => true
  | String c r => negb (Py.isspace c) && no_space r
  end.

(** [s] starts with [p]. *)
Definition starts_with (s p : string) : Prop := ∃ rest, s = p +:+ rest.

(** A world with no file; an external program that leaves the files
    alone and prints [out], which goes to the target when there is one; an
    external program that removes the target of its output; and the
    encoding ISO 8859-1, in which every byte is the character of the same
    code. *)
Definition empty_world : world :=
  {| files := ∅; console := []; spawned := [] |}.

Definition silent (out : string) : program := fun _ target fs =>
  match target with
  | Some name => <[name := out]> fs
  | None => fs
  end.

Definition unlinker : program := fun _ target fs =>
  match target with
  | Some name => delete name fs
  | None => fs
  end.

Definition latin1 : decoder := Some.

(** Sample inputs: command line arguments, and an output of the latency
    utility with a header, three data rows (the last one padded), a
    comment and a blank line. *)
Definition sample_args : args :=
  {| tracefile := "trace.txt"; ipfile := "ips.txt" |}.

Definition sample_lines : list string :=
  [ "msgid n mean p90 p95" +:+ Py.nl;
    "m1 5 1.5 2.5 3.5" +:+ Py.nl;
    "m2 5 2.5 3.5 4.5" +:+ Py.nl;
    "# note" +:+ Py.nl;
    Py.nl;
    "m3 5 1 2.25 3.125   " +:+ Py.nl ].

Definition sample_output : string := cat sample_lines.

(** * Properties *)

Local Close Scope Z_scope.

(** ** Strings *)

Section Strings.

Implicit Types s t u p : string.

Lemma string_app_cons c s t : String c s +:+ t = String c (s +:+ t).
Proof. reflexivity. Qed.

Lemma string_app_nil_l s : "" +:+ s = s.
Proof. reflexivity. Qed.

Lemma string_app_nil_r s : s +:+ "" = s.
Proof.
  induction s as [|c s IH]; [done |]. by rewrite string_app_cons, IH.
Qed.

Lemma string_app_assoc s t u : (s +:+ t) +:+ u = s +:+ (t +:+ u).
Proof.
  induction s as [|c s IH]; [done |]. by rewrite !string_app_cons, IH.
Qed.

Lemma string_length_app s t :
  String.length (s +:+ t) = (String.length s + String.length t)%nat.
Proof.
  induction s as [|c s IH]; [done |].
  rewrite string_app_cons. simpl. by rewrite IH.
Qed.

Lemma string_app_inj_r s t u : s +:+ u = t +:+ u -> s = t.
Proof.
  revert t. induction s as [|c s IH]; intros [|d t] H.
  - done.
  - apply (f_equal String.length) in H.
    rewrite !string_length_app in H. simpl in H. lia.
  - apply (f_equal String.length) in H.
    rewrite !string_length_app in H. simpl in H. lia.
  - rewrite !string_app_cons in H. injection H as -> H.
    f_equal. by apply IH.
Qed.

Lemma prefix_starts_with p s : String.prefix p s = true <-> starts_with s p.
Proof.
  unfold starts_with. revert s. induction p as [|c p IH]; intros s.
  - split; [intros _; exists s; reflexivity | by destruct s].
  - destruct s as [|d s]; simpl.
    + split; [done | intros [rest H]; discriminate].
    + destruct (ascii_dec c d) as [->|Hne].
      * rewrite IH. split; intros [rest H]; exists rest.
        -- rewrite string_app_cons. congruence.
        -- rewrite string_app_cons in H. congruence.
      * split; [done |].
        intros [rest H]. rewrite string_app_cons in H. congruence.
Qed.

Lemma cat_cons x (l : list string) : cat (x :: l) = x +:+ cat l.
Proof. reflexivity. Qed.

End Strings.

(** ** Sequencing *)

Lemma io_bind_ok {A B : Type} (m : io A) (k : A -> io B) w a w' :
  m w = (Ok a, w') -> (m ≫= k) w = k a w'.
Proof. intros H. unfold mbind, io_bind. by rewrite H. Qed.

Lemma io_bind_raise {A B : Type} (m : io A) (k : A -> io B) w e w' :
  m w = (Raise e, w') -> (m ≫= k) w = (Raise e, w').
Proof. intros H. unfold mbind, io_bind. by rewrite H. Qed.

Lemma res_bind_ok {A B : Type} (m : res A) (k : A -> res B) b :
  m ≫= k = Ok b -> ∃ a, m = Ok a ∧ k a = Ok b.
Proof. destruct m as [a|e]; [by exists a | done]. Qed.

(** ** One pass of the aggregation loop *)

Section Pass.

Variable s : sweep.
Variable data : list string.

Lemma for_each_append lines w old :
  files w !! "computed.out" = Some old ->
  for_each lines (fun line => append_file "computed.out" (raw_line line)) w
  = (Ok (), {| files := <["computed.out" := old +:+ cat (raw_line <$> lines)]> (files w);
               console := console w; spawned := spawned w |}).
Proof.
  revert w old. induction lines as [|line lines IH]; intros w old Hold.
  - destruct w as [fs co sp]; simpl in *.
    by rewrite string_app_nil_r, insert_id.
  - cbn [for_each]. erewrite io_bind_ok; [|reflexivity].
    erewrite IH; cbn [files console spawned].
    + rewrite Hold. cbn [default]. f_equal. f_equal.
      rewrite insert_insert_eq. f_equal.
      by rewrite fmap_cons, cat_cons, string_app_assoc.
    + by rewrite Hold, lookup_insert_eq.
Qed.

(** The averages of a block are the [int] 0 or floats. *)
Lemma average_shape total n a :
  average total n = Ok a -> a = Py.Int 0 ∨ ∃ x, a = Py.Float x.
Proof.
  unfold average. destruct (n =? 0)%nat; [intros [= <-]; by left |].
  intros H. right. unfold Py.truediv in H.
  destruct total as [z|x]; simpl in H.
  - destruct (Py.int_truediv z _); simpl in H; [|done].
    injection H as <-. by eexists.
  - destruct (Py.float_of_int _) as [y|]; simpl in H; [|done].
    destruct (Py.is_zero y); [done |]. injection H as <-. by eexists.
Qed.

Lemma format_2f_shape a :
  a = Py.Int 0 ∨ (∃ x, a = Py.Float x) -> ∃ text, Py.format_2f a = Ok text.
Proof. intros [->|[x ->]]; by eexists. Qed.

(** Once the averages are there, the summary is written. *)
Lemma summary_after_averages lines datasize freq avg_mean avg_p90 avg_p95 :
  averages lines = Ok (avg_mean, avg_p90, avg_p95) ->
  ∃ text, summary datasize freq avg_mean avg_p90 avg_p95 = Ok text.
Proof.
  unfold averages. intros H.
  apply res_bind_ok in H as [[[tm t90] t95] [_ H]].
  apply res_bind_ok in H as [a1 [H1 H]].
  apply res_bind_ok in H as [a2 [H2 H]].
  apply res_bind_ok in H as [a3 [H3 H]].
  injection H as <- <- <-.
  destruct (format_2f_shape _ (average_shape _ _ _ H1)) as [m Hm].
  destruct (format_2f_shape _ (average_shape _ _ _ H2)) as [p Hp].
  destruct (format_2f_shape _ (average_shape _ _ _ H3)) as [q Hq].
  unfold summary. rewrite Hm, Hp, Hq. by eexists.
Qed.

Lemma block_report_raise iteration datasize freq e :
  block_report s data iteration datasize freq = Raise e ->
  averages (iteration_lines s data iteration) = Raise e.
Proof.
  unfold block_report.
  destruct (averages _) as [[[a b] c]|e'] eqn:Ha; simpl; [|congruence].
  destruct (summary_after_averages _ datasize freq _ _ _ Ha) as [text ->].
  done.
Qed.

Lemma aggregate_block_raise iteration datasize freq e w :
  block_report s data iteration datasize freq = Raise e ->
  aggregate_block s data iteration datasize freq w = (Raise e, w).
Proof.
  intros H%block_report_raise. unfold aggregate_block.
  apply io_bind_raise. unfold lift. by rewrite H.
Qed.

Lemma aggregate_block_ok iteration datasize freq text w old :
  block_report s data iteration datasize freq = Ok text ->
  files w !! "computed.out" = Some old ->
  aggregate_block s data iteration datasize freq w
  = (Ok (), {| files := <["computed.out" := old +:+ text]> (files w);
               console := console w ++ [progress (datasize, freq)];
               spawned := spawned w |}).
Proof.
  unfold block_report, aggregate_block. intros H Hold.
  destruct (averages _) as [[[a b] c]|] eqn:Ha; simpl in H; [|done].
  destruct (summary _ _ _ _ _) as [sm|] eqn:Hs; simpl in H; [|done].
  injection H as <-.
  erewrite io_bind_ok; [|reflexivity]. cbv beta iota.
  erewrite io_bind_ok; [|by apply for_each_append].
  erewrite io_bind_ok; [|unfold lift; by rewrite Hs].
  erewrite io_bind_ok; [|reflexivity].
  unfold print, progress. cbn [files console spawned fst snd].
  rewrite lookup_insert_eq. cbn [from_option]. unfold id.
  by rewrite insert_insert_eq, string_app_assoc.
Qed.

(** The loop: the completed passes are appended one after another, and
    the first exception ends it. *)
Lemma aggregate_loop_reports combos iteration w old :
  files w !! "computed.out" = Some old ->
  aggregate_loop s data iteration combos w
  = ( match (reports s data iteration combos).2 with
      | None => Ok ()
      | Some e => Raise e
      end,
      {| files := <["computed.out" :=
                     old +:+ cat (reports s data iteration combos).1]> (files w);
         console := console w
           ++ (progress <$> take (length (reports s data iteration combos).1) combos);
         spawned := spawned w |} ).
Proof.
  revert iteration w old.
  induction combos as [|[datasize freq] combos IH]; intros iteration w old Hold.
  - destruct w as [fs co sp]; simpl in *.
    by rewrite string_app_nil_r, insert_id, app_nil_r.
  - cbn [aggregate_loop reports].
    destruct (block_report s data iteration datasize freq) as [text|e] eqn:Hb.
    + erewrite io_bind_ok; [|by eapply aggregate_block_ok].
      erewrite IH; cbn [files console spawned].
      * destruct (reports s data (S iteration) combos) as [texts r].
        cbn [fst snd length take fmap list_fmap].
        rewrite insert_insert_eq, cat_cons, string_app_assoc.
        by rewrite <- app_assoc.
      * by rewrite lookup_insert_eq.
    + erewrite io_bind_raise; [|by apply aggregate_block_raise].
      destruct w as [fs co sp]; simpl in *.
      by rewrite string_app_nil_r, insert_id, app_nil_r.
Qed.

End Pass.

(** ** The aggregation phase as a whole *)

Lemma aggregate_reports s all_lines w :
  aggregate s all_lines w
  = ( match (reports s (data_lines all_lines) 0 (combinations s)).2 with
      | None => Ok ()
      | Some e => Raise e
      end,
      {| files := <["computed.out" :=
           header +:+ cat (reports s (data_lines all_lines) 0 (combinations s)).1]>
           (files w);
         console := console w
           ++ (progress <$> take
                 (length (reports s (data_lines all_lines) 0 (combinations s)).1)
                 (combinations s));
         spawned := spawned w |} ).
Proof.
  unfold aggregate. erewrite io_bind_ok; [|reflexivity].
  erewrite aggregate_loop_reports; cbn [files console spawned].
  - by rewrite insert_insert_eq.
  - by rewrite lookup_insert_eq.
Qed.

(** ** Blocks and passes *)

Section Blocks.

Variable s : sweep.
Variable data : list string.

Lemma iteration_lines_take_drop i :
  iteration_lines s data i = take (count s) (drop (i * count s) data).
Proof. unfold iteration_lines, Py.slice. f_equal. lia. Qed.

Lemma iteration_lines_lookup i j line :
  iteration_lines s data i !! j = Some line ->
  j < count s ∧ data !! (i * count s + j) = Some line.
Proof.
  rewrite iteration_lines_take_drop. intros H.
  apply lookup_take_Some in H as [H Hj]. by rewrite lookup_drop in H.
Qed.

Lemma block_rows_concat n :
  concat (block_rows s data <$> seq 0 n) = raw_line <$> take (n * count s) data.
Proof.
  induction n as [|n IH]; [done |].
  rewrite seq_S, fmap_app, concat_app, IH. cbn [fmap list_fmap concat].
  rewrite app_nil_r. unfold block_rows.
  rewrite iteration_lines_take_drop, <- fmap_app, take_take_drop.
  do 2 f_equal. lia.
Qed.

Lemma reports_lookup combos i k text :
  (reports s data i combos).1 !! k = Some text ->
  ∃ d f, combos !! k = Some (d, f) ∧ block_report s data (i + k) d f = Ok text.
Proof.
  revert i k. induction combos as [|[d f] combos IH]; intros i k; simpl; [done |].
  destruct (block_report s data i d f) as [t|e] eqn:Hb; simpl; [|done].
  specialize (IH (S i)). destruct (reports s data (S i) combos) as [ts r].
  destruct k as [|k]; simpl.
  - intros [= <-]. exists d, f. by rewrite Nat.add_0_r.
  - intros H. destruct (IH k H) as (d' & f' & ? & ?).
    exists d', f'. by rewrite Nat.add_succ_r.
Qed.

Lemma reports_stop combos i k d f e :
  combos !! k = Some (d, f) ->
  block_report s data (i + k) d f = Raise e ->
  ∃ e', (reports s data i combos).2 = Some e'
        ∧ length (reports s data i combos).1 ≤ k.
Proof.
  revert i k. induction combos as [|[d0 f0] combos IH]; intros i k; [done |].
  simpl. destruct (block_report s data i d0 f0) as [t|e0] eqn:Hb; simpl.
  - destruct k as [|k]; simpl.
    + intros [= -> ->]. rewrite Nat.add_0_r. congruence.
    + intros Hk He. rewrite Nat.add_succ_r in He.
      destruct (IH (S i) k Hk He) as (e' & H1 & H2).
      destruct (reports s data (S i) combos). simpl in *.
      exists e'. split; [done | lia].
  - intros _ _. exists e0. split; [done | lia].
Qed.

End Blocks.

Lemma product_row {A B : Type} (x : A) (ys : list B) :
  (ys ≫= λ y, [(x, y)]) = pair x <$> ys.
Proof.
  induction ys as [|y ys IH]; [done |].
  by rewrite bind_cons, IH.
Qed.

Lemma product_cons {A B : Type} (x : A) (xs : list A) (ys : list B) :
  Py.product (x :: xs) ys = (pair x <$> ys) ++ Py.product xs ys.
Proof. unfold Py.product. by rewrite bind_cons, product_row. Qed.

Lemma length_product {A B : Type} (xs : list A) (ys : list B) :
  length (Py.product xs ys) = length xs * length ys.
Proof.
  induction xs as [|x xs IH]; [done |].
  rewrite product_cons, length_app, length_fmap, IH. simpl. lia.
Qed.

(** The pair of the [i]-th first component and the [j]-th second one is
    at position [i * length ys + j]: the first list varies slowest. *)
Lemma lookup_product {A B : Type} (xs : list A) (ys : list B) i j x y :
  xs !! i = Some x -> ys !! j = Some y ->
  Py.product xs ys !! (i * length ys + j) = Some (x, y).
Proof.
  revert i. induction xs as [|x0 xs IH]; intros i Hx Hy; [done |].
  rewrite product_cons. destruct i as [|i]; simpl in Hx.
  - injection Hx as ->. rewrite Nat.mul_0_l, Nat.add_0_l, lookup_app_l.
    + by rewrite list_lookup_fmap, Hy.
    + rewrite length_fmap. by apply lookup_lt_Some in Hy.
  - rewrite lookup_app_r; rewrite length_fmap; [|lia].
    replace (S i * length ys + j - length ys) with (i * length ys + j) by lia.
    by apply IH.
Qed.

Lemma length_combinations s :
  length (combinations s) * count s = capacity s.
Proof. unfold combinations, capacity. by rewrite length_product. Qed.

(** ** Decimal numerals *)

Lemma is_digit_pretty_N_char k : Py.is_digit (pretty_N_char k) = true.
Proof. unfold pretty_N_char. by repeat case_match. Qed.

Lemma pretty_N_go_digits n acc :
  ∃ d, pretty_N_go n acc = d +:+ acc ∧ all_digits d = true
       ∧ ((0 < n)%N -> d ≠ "").
Proof.
  revert acc. induction (N.lt_wf_0 n) as [n _ IH]; intros acc.
  destruct (decide (n = 0)%N) as [->|Hn].
  - exists "". rewrite pretty_N_go_0. split_and!; [done | done | lia].
  - rewrite pretty_N_go_step by lia.
    destruct (IH (n `div` 10)%N) with
      (acc := String (pretty_N_char (n `mod` 10)%N) acc) as (d & -> & Hd & _).
    { apply N.div_lt; lia. }
    exists (d +:+ String (pretty_N_char (n `mod` 10)%N) "").
    split_and!.
    + by rewrite string_app_assoc.
    + clear -Hd. induction d as [|c d IHd].
      * simpl. by rewrite is_digit_pretty_N_char.
      * rewrite string_app_cons. simpl in *.
        apply andb_true_iff in Hd as [-> Hd]. by apply IHd.
    + intros _. by destruct d.
Qed.

Lemma pretty_N_digits (n : N) : all_digits (pretty n) = true ∧ pretty n ≠ "".
Proof.
  unfold pretty, pretty_N. case_decide; [done |].
  destruct (pretty_N_go_digits n "") as (d & -> & Hd & Hne).
  rewrite string_app_nil_r. split; [done | apply Hne; lia].
Qed.

Lemma pretty_Z_nonneg_digits (z : Z) :
  (0 <= z)%Z -> all_digits (pretty z) = true ∧ pretty z ≠ "".
Proof.
  destruct z as [|p|p]; [done | | lia]. intros _.
  apply (pretty_N_digits (Npos p)).
Qed.

(** A decimal numeral is a run of digits, after a minus sign when the
    number is negative. *)
Lemma str_digits (z : Z) :
  ∃ d, Py.str z = (if (z <? 0)%Z then "-" else "") +:+ d
       ∧ all_digits d = true ∧ d ≠ "".
Proof.
  unfold Py.str. destruct z as [|p|p].
  - by exists "0".
  - exists (pretty (Zpos p)). split; [done |]. by apply pretty_Z_nonneg_digits.
  - exists (pretty (Npos p)). split; [done |]. apply pretty_N_digits.
Qed.

Lemma digits_dash_inj a b r r' :
  all_digits a = true -> all_digits b = true ->
  a +:+ "-" +:+ r = b +:+ "-" +:+ r' -> a = b ∧ r = r'.
Proof.
  revert b. induction a as [|c a IH]; intros [|c' b] Ha Hb H.
  - by injection H.
  - rewrite string_app_cons in H. injection H as <- _.
    simpl in Hb. discriminate.
  - rewrite string_app_cons in H. injection H as -> _.
    simpl in Ha. discriminate.
  - rewrite !string_app_cons in H. injection H as -> H.
    simpl in Ha, Hb.
    apply andb_true_iff in Ha as [_ Ha]. apply andb_true_iff in Hb as [_ Hb].
    destruct (IH b Ha Hb H) as [-> ->]. done.
Qed.

(** Two runs write to the same file only when they have the same
    datasize and the same frequency. *)
Lemma output_name_inj d f d' f' :
  output_name d f = output_name d' f' -> d = d' ∧ f = f'.
Proof.
  unfold output_name. intros H.
  destruct (str_digits d) as (a & Ea & Ha & Hane).
  destruct (str_digits d') as (b & Eb & Hb & Hbne).
  assert (Py.str d = Py.str d' ∧ f +:+ "-output.txt" = f' +:+ "-output.txt")
    as [Hd Hf].
  { rewrite Ea, Eb in *. rewrite !string_app_assoc in H.
    destruct (d <? 0)%Z, (d' <? 0)%Z.
    - rewrite !string_app_cons, !string_app_nil_l in H. injection H as H.
      by destruct (digits_dash_inj _ _ _ _ Ha Hb H) as [-> ->].
    - rewrite string_app_cons, !string_app_nil_l in H.
      destruct b as [|c b]; [done |].
      rewrite string_app_cons in H. injection H as <- _.
      simpl in Hb. discriminate.
    - rewrite string_app_cons, !string_app_nil_l in H.
      destruct a as [|c a]; [done |].
      rewrite string_app_cons in H. injection H as -> _.
      simpl in Ha. discriminate.
    - rewrite !string_app_nil_l in H.
      by destruct (digits_dash_inj _ _ _ _ Ha Hb H) as [-> ->]. }
  split.
  - by apply (inj (pretty : Z -> string)).
  - by apply string_app_inj_r in Hf.
Qed.

(** ** Run phase *)

Section RunPhase.

Variable exec : program.

(** The three assignments overwrite what an earlier pass left. *)
Lemma set_dynamic_values_again template d f d' f' :
  set_dynamic_values (set_dynamic_values template d f) d' f'
  = set_dynamic_values template d' f'.
Proof.
  unfold set_dynamic_values.
  rewrite (list_insert_insert_ne _ 12 16), (list_insert_insert_ne _ 12 14) by done.
  rewrite list_insert_insert_eq.
  rewrite (list_insert_insert_ne _ 14 16) by done.
  by rewrite !list_insert_insert_eq.
Qed.

Lemma run_loop_spawned combos template w :
  (run_loop exec template combos w).1 = Ok ()
  ∧ spawned (run_loop exec template combos w).2
    = spawned w ++ ((λ p, set_dynamic_values template p.1 p.2) <$> combos).
Proof.
  revert template w.
  induction combos as [|[d f] combos IH]; intros template w.
  - simpl. by rewrite app_nil_r.
  - cbn [run_loop]. erewrite io_bind_ok; [|reflexivity].
    erewrite io_bind_ok; [|reflexivity].
    match goal with
    | |- context [run_loop exec ?t combos ?w1] => destruct (IH t w1) as [H1 H2]
    end.
    cbn [files console spawned] in *. split; [done |].
    rewrite H2, <- app_assoc. f_equal. cbn [fmap list_fmap fst snd]. f_equal.
    apply list_fmap_ext. intros _ [d' f'] _. apply set_dynamic_values_again.
Qed.

Lemma run_phase_completes a s w : (run_phase exec a s w).1 = Ok ().
Proof. apply run_loop_spawned. Qed.

End RunPhase.

(** C6. The run phase starts one publish client per pair of the sweep, in
    product order (the datasize varies slowest), and never raises: the
    commands it starts are, in order, the template with the frequency as
    the sleep value, the datasize, and the output file
    "<datasize>-<freq>-output.txt"; there are D×F of them; and two pairs
    get the same output file only when they are the same pair. *)
Theorem run_phase_invocations (exec : program) (a : args) (s : sweep) (w : world) :
  (run_phase exec a s w).1 = Ok ()
  ∧ spawned (run_phase exec a s w).2
    = spawned w ++
      ((λ '(datasize, freq),
          [ "./p2p_client_multi_streams_publish";
            "-start-index"; "1"; "-end-index"; "2";
            "-ipfile"; ipfile a; "-topic"; "topicA";
            "-count"; Py.str (Z.of_nat (count s));
            "-sleep"; freq;
            "-datasize"; Py.str datasize;
            "-output"; Py.str datasize +:+ "-" +:+ freq +:+ "-output.txt" ])
       <$> combinations s)
  ∧ length (combinations s) = length (datasizes s) * length (frequencies s)
  ∧ (∀ i j datasize freq,
       datasizes s !! i = Some datasize -> frequencies s !! j = Some freq ->
       combinations s !! (i * length (frequencies s) + j) = Some (datasize, freq))
  ∧ (∀ d f d' f',
       Py.str d +:+ "-" +:+ f +:+ "-output.txt"
       = Py.str d' +:+ "-" +:+ f' +:+ "-output.txt" -> d = d' ∧ f = f').
Proof.
  split_and!.
  - apply run_phase_completes.
  - unfold run_phase. rewrite (proj2 (run_loop_spawned _ _ _ _)).
    f_equal. apply list_fmap_ext. by intros _ [d f] _.
  - apply length_product.
  - intros i j d f. apply lookup_product.
  - apply output_name_inj.
Qed.

(** ** The report file across runs *)

Lemma trace_phase_eq exec a w :
  trace_phase exec a w
  = (Ok (),
     {| files := exec (command_process a) (Some "process.out")
                   (<["process.out" := ""]> (files w));
        console := console w
          ++ ["Running command: " +:+ Py.join " " (command_process a)];
        spawned := spawned w ++ [command_process a] |}).
Proof. unfold trace_phase. by erewrite io_bind_ok; [|reflexivity]. Qed.

(** The script after its subprocesses: it opens [process.out], decodes
    it, and aggregates its lines. *)
Lemma main_cases exec decode a s w :
  main exec decode a s w
  = match files (after_subprocesses exec a s w) !! "process.out" with
    | None => (Raise FileNotFoundError, after_subprocesses exec a s w)
    | Some bytes =>
        match decode bytes with
        | None => (Raise UnicodeDecodeError, after_subprocesses exec a s w)
        | Some text => aggregate s (readlines text) (after_subprocesses exec a s w)
        end
    end.
Proof.
  unfold main, after_subprocesses.
  pose proof (run_phase_completes exec a s w) as Hrun.
  destruct (run_phase exec a s w) as [[[]|e] w1] eqn:E1; simpl in Hrun; [|done].
  erewrite io_bind_ok; [|exact E1].
  cbn [snd]. rewrite trace_phase_eq. cbn [snd].
  erewrite io_bind_ok; [|apply trace_phase_eq].
  set (w2 := {| files := _ |}).
  unfold aggregation_phase, read_file.
  destruct (files w2 !! "process.out") as [bytes|] eqn:Hp.
  - destruct (decode bytes) as [text|] eqn:Hd.
    + erewrite io_bind_ok; [done | by rewrite Hp, Hd].
    + erewrite io_bind_raise; [done | by rewrite Hp, Hd].
  - erewrite io_bind_raise; [done | by rewrite Hp].
Qed.

(** The script does not write to [process.out]. *)
Lemma main_process_out exec decode a s w :
  files (main exec decode a s w).2 !! "process.out"
  = files (after_subprocesses exec a s w) !! "process.out".
Proof.
  rewrite main_cases.
  destruct (files (after_subprocesses exec a s w) !! "process.out")
    as [bytes|] eqn:Hp; [|done].
  destruct (decode bytes) as [text|]; [|done].
  rewrite aggregate_reports. cbn [snd files]. by rewrite lookup_insert_ne.
Qed.

(** C1 (as amended). A run that gets as far as its aggregation phase
    does not keep what [computed.out] held: the phase rewrites the file
    from its own header on, so that after it the file holds the header and
    the reports of the passes of this run that completed, whatever the
    file held before; only within a run is the file appended to.  For the
    whole script: when [process.out], as the subprocesses left it, is there
    and decodes, the file is determined by the text of [process.out]; when
    it is missing or does not decode, the script ends at the reading of
    it and leaves every file, [computed.out] too, as the subprocesses left
    it. *)
Theorem computed_out_starts_afresh :
  (∀ s all_lines w,
     files (aggregate s all_lines w).2 !! "computed.out"
     = Some (header +:+
             cat (reports s (data_lines all_lines) 0 (combinations s)).1))
  ∧ (∀ s all_lines w1 w2,
       files (aggregate s all_lines w1).2 !! "computed.out"
       = files (aggregate s all_lines w2).2 !! "computed.out")
  ∧ (∀ exec decode a s w,
       match files (main exec decode a s w).2 !! "process.out" ≫= decode with
       | Some text =>
           files (main exec decode a s w).2 !! "computed.out"
           = Some (header +:+
                   cat (reports s (data_lines (readlines text)) 0
                          (combinations s)).1)
       | None =>
           (main exec decode a s w).2 = after_subprocesses exec a s w
       end).
Proof.
  split_and!.
  - intros s all_lines w. rewrite aggregate_reports. cbn [snd files].
    by rewrite lookup_insert_eq.
  - intros s all_lines w1 w2. rewrite !aggregate_reports. cbn [snd files].
    by rewrite !lookup_insert_eq.
  - intros exec decode a s w. rewrite main_process_out, main_cases.
    destruct (files (after_subprocesses exec a s w) !! "process.out")
      as [bytes|]; [|done]. cbn [mbind option_bind].
    destruct (decode bytes) as [text|]; [|done].
    rewrite aggregate_reports. cbn [snd files]. by rewrite lookup_insert_eq.
Qed.

(** C1 as stated fails: run the script twice on the same inputs, the
    second time in the world the first run left.  The report of the second
    run is the report of the first one again, not that report followed by
    a second header and second blocks. *)
Lemma computed_out_not_append_only :
  let first :=
    main (silent sample_output) latin1 sample_args script_sweep empty_world in
  let second :=
    main (silent sample_output) latin1 sample_args script_sweep first.2 in
  files first.2 !! "computed.out" ≠ None
  ∧ files second.2 !! "computed.out" = files first.2 !! "computed.out"
  ∧ ¬ (∃ old new,
         files first.2 !! "computed.out" = Some old
         ∧ files second.2 !! "computed.out" = Some (old +:+ header +:+ new)).
Proof.
  cbv zeta.
  assert (files (main (silent sample_output) latin1 sample_args script_sweep
                   (main (silent sample_output) latin1 sample_args script_sweep
                      empty_world).2).2 !! "computed.out"
          = files (main (silent sample_output) latin1 sample_args script_sweep
                     empty_world).2 !! "computed.out") as Hsame
    by (vm_compute; reflexivity).
  split_and!.
  - by vm_compute.
  - exact Hsame.
  - intros (old & new & H1 & H2). rewrite Hsame, H1 in H2.
    injection H2 as H2. apply (f_equal String.length) in H2.
    rewrite !string_length_app in H2.
    assert (String.length header = 55) as Hh by (vm_compute; reflexivity).
    lia.
Qed.

(** ** The blocks of the report *)

Lemma block_report_ok s data i d f text :
  block_report s data i d f = Ok text ->
  ∃ a b c sm,
    averages (iteration_lines s data i) = Ok (a, b, c)
    ∧ summary d f a b c = Ok sm
    ∧ text = cat (block_rows s data i) +:+ sm.
Proof.
  unfold block_report.
  destruct (averages _) as [[[a b] c]|] eqn:Ha; simpl; [|done].
  destruct (summary d f a b c) as [sm|] eqn:Hs; simpl; [|done].
  intros [= <-]. by exists a, b, c, sm.
Qed.

(** When every pass completes, each report is the rows of its block
    followed by the summary of that block. *)
Lemma reports_summaries s data combos i :
  (reports s data i combos).2 = None ->
  ∃ summaries,
    length summaries = length combos
    ∧ (∀ k sm, summaries !! k = Some sm ->
         ∃ d f a b c,
           combos !! k = Some (d, f)
           ∧ averages (iteration_lines s data (i + k)) = Ok (a, b, c)
           ∧ summary d f a b c = Ok sm)
    ∧ (reports s data i combos).1
      = zip_with (λ k sm, cat (block_rows s data k) +:+ sm)
          (seq i (length combos)) summaries.
Proof.
  revert i. induction combos as [|[d f] combos IH]; intros i.
  - intros _. exists []. by split_and!.
  - cbn [reports].
    destruct (block_report s data i d f) as [t|] eqn:Hb; simpl; [|done].
    apply block_report_ok in Hb as (a & b & c & sm & Ha & Hs & ->).
    specialize (IH (S i)).
    destruct (reports s data (S i) combos) as [ts r]. simpl in *.
    intros Hr. destruct (IH Hr) as (sms & Hlen & Hsm & ->).
    exists (sm :: sms). split_and!.
    + simpl. by rewrite Hlen.
    + intros [|k] sm'; simpl.
      * intros [= <-]. exists d, f, a, b, c. by rewrite Nat.add_0_r.
      * intros Hk. destruct (Hsm k sm' Hk) as (d' & f' & a' & b' & c' & ? & ? & ?).
        exists d', f', a', b', c'. by rewrite Nat.add_succ_r.
    + done.
Qed.

(** ** The filter *)

Lemma truthy_nonempty s : Py.truthy s = true <-> s ≠ "".
Proof. by destruct s. Qed.

Lemma is_data_line_spec line :
  is_data_line line = true
  <-> Py.strip line ≠ "" ∧ ¬ starts_with line "#" ∧ ¬ starts_with line "msgid".
Proof.
  unfold is_data_line, Py.startswith.
  rewrite !andb_true_iff, !negb_true_iff, truthy_nonempty.
  rewrite <- !prefix_starts_with, !not_true_iff_false. tauto.
Qed.

Lemma data_lines_cons line all_lines :
  data_lines (line :: all_lines)
  = if is_data_line line then line :: data_lines all_lines
    else data_lines all_lines.
Proof. reflexivity. Qed.

Lemma elem_of_data_lines line all_lines :
  line ∈ data_lines all_lines <-> line ∈ all_lines ∧ is_data_line line = true.
Proof. unfold data_lines. rewrite !list_elem_of_In. apply filter_In. Qed.

Lemma data_lines_app l1 l2 :
  data_lines (l1 ++ l2) = data_lines l1 ++ data_lines l2.
Proof. apply List.filter_app. Qed.

(** C4. A line is kept exactly when it is not empty once trimmed, does
    not start with "#" and does not start with "msgid"; the lines kept are
    lines of the input in their order, so there are no more of them than
    input lines. *)
Theorem data_lines_filter (all_lines : list string) :
  (∀ line, line ∈ data_lines all_lines
     <-> line ∈ all_lines
         ∧ Py.strip line ≠ ""
         ∧ ¬ starts_with line "#"
         ∧ ¬ starts_with line "msgid")
  ∧ sublist (data_lines all_lines) all_lines
  ∧ length (data_lines all_lines) ≤ length all_lines.
Proof.
  assert (sublist (data_lines all_lines) all_lines) as Hsub.
  { induction all_lines as [|line all_lines IH]; [constructor |].
    rewrite data_lines_cons.
    destruct (is_data_line line); by constructor. }
  split_and!.
  - intros line. rewrite <- is_data_line_spec. apply elem_of_data_lines.
  - exact Hsub.
  - by apply sublist_length.
Qed.

(** ** The columns read *)

Lemma parse_line_columns line mean p90 p95 :
  parse_line line = Ok (mean, p90, p95) ->
  ∃ c2 c3 c4,
    Py.split line !! 2 = Some c2 ∧ Py.split line !! 3 = Some c3
    ∧ Py.split line !! 4 = Some c4
    ∧ Py.float c2 = Ok mean ∧ Py.float c3 = Ok p90 ∧ Py.float c4 = Ok p95.
Proof.
  unfold parse_line, Py.index. intros H.
  destruct (Py.split line !! 2) as [c2|]; simpl in H; [|done].
  destruct (Py.float c2) as [x2|] eqn:H2; simpl in H; [|done].
  destruct (Py.split line !! 3) as [c3|]; simpl in H; [|done].
  destruct (Py.float c3) as [x3|] eqn:H3; simpl in H; [|done].
  destruct (Py.split line !! 4) as [c4|]; simpl in H; [|done].
  destruct (Py.float c4) as [x4|] eqn:H4; simpl in H; [|done].
  injection H as <- <- <-. by exists c2, c3, c4.
Qed.

(** The totals after the loop are the totals before it with the three
    columns of each line added in turn. *)
Lemma totals_rows lines : ∀ t1 t2 t3 r1 r2 r3,
  totals t1 t2 t3 lines = Ok (r1, r2, r3) ->
  ∃ rows,
    Forall2 (λ line row, parse_line line = Ok row) lines rows
    ∧ foldl (λ acc x, total ← acc; Py.add total (Py.Float x)) (Ok t1) (rows.*1.*1)
      = Ok r1
    ∧ foldl (λ acc x, total ← acc; Py.add total (Py.Float x)) (Ok t2) (rows.*1.*2)
      = Ok r2
    ∧ foldl (λ acc x, total ← acc; Py.add total (Py.Float x)) (Ok t3) (rows.*2)
      = Ok r3.
Proof.
  induction lines as [|line lines IH]; intros t1 t2 t3 r1 r2 r3 H.
  - injection H as <- <- <-. exists []. by split_and!.
  - cbn [totals] in H.
    destruct (parse_line line) as [[[mean p90] p95]|] eqn:Hp; simpl in H; [|done].
    destruct (Py.add t1 (Py.Float mean)) as [u1|] eqn:H1; simpl in H; [|done].
    destruct (Py.add t2 (Py.Float p90)) as [u2|] eqn:H2; simpl in H; [|done].
    destruct (Py.add t3 (Py.Float p95)) as [u3|] eqn:H3; simpl in H; [|done].
    destruct (IH _ _ _ _ _ _ H) as (rows & Hrows & Hr1 & Hr2 & Hr3).
    exists ((mean, p90, p95) :: rows). split_and!.
    + by constructor.
    + simpl. by rewrite H1.
    + simpl. by rewrite H2.
    + simpl. by rewrite H3.
Qed.

(** C3 (as amended). The three values read from a data line of a block
    are its columns 2, 3 and 4, counted from 0: the third, fourth and fifth
    fields, the mean, p90 and p95 of a record [message-id, n, mean, p90,
    p95, ...].  Each is read as a float; the averages of the block are the
    totals of these columns, built from 0 in the order of the lines, over
    the number of lines. *)
Theorem averages_of_columns_2_3_4 lines avg_mean avg_p90 avg_p95 :
  averages lines = Ok (avg_mean, avg_p90, avg_p95) ->
  ∃ rows : list (spec_float * spec_float * spec_float),
    Forall2 (λ line '(mean, p90, p95),
       ∃ c2 c3 c4,
         Py.split line !! 2 = Some c2 ∧ Py.split line !! 3 = Some c3
         ∧ Py.split line !! 4 = Some c4
         ∧ Py.float c2 = Ok mean ∧ Py.float c3 = Ok p90 ∧ Py.float c4 = Ok p95)
      lines rows
    ∧ ∃ total_mean total_p90 total_p95,
        running_total (rows.*1.*1) = Ok total_mean
        ∧ running_total (rows.*1.*2) = Ok total_p90
        ∧ running_total (rows.*2) = Ok total_p95
        ∧ average total_mean (length lines) = Ok avg_mean
        ∧ average total_p90 (length lines) = Ok avg_p90
        ∧ average total_p95 (length lines) = Ok avg_p95.
Proof.
  unfold averages. intros H.
  destruct (totals _ _ _ lines) as [[[t1 t2] t3]|] eqn:Ht; simpl in H; [|done].
  destruct (average t1 _) as [a1|] eqn:H1; simpl in H; [|done].
  destruct (average t2 _) as [a2|] eqn:H2; simpl in H; [|done].
  destruct (average t3 _) as [a3|] eqn:H3; simpl in H; [|done].
  injection H as <- <- <-.
  destruct (totals_rows _ _ _ _ _ _ _ Ht) as (rows & Hrows & Hr1 & Hr2 & Hr3).
  exists rows. split.
  - eapply Forall2_impl; [exact Hrows |].
    intros line [[mean p90] p95]. apply parse_line_columns.
  - by exists t1, t2, t3.
Qed.

(** The theorem at the data lines of the sample input. *)
Lemma averages_of_columns_2_3_4_sample :
  ∃ rows : list (spec_float * spec_float * spec_float),
    Forall2 (λ line '(mean, p90, p95),
       ∃ c2 c3 c4,
         Py.split line !! 2 = Some c2 ∧ Py.split line !! 3 = Some c3
         ∧ Py.split line !! 4 = Some c4
         ∧ Py.float c2 = Ok mean ∧ Py.float c3 = Ok p90 ∧ Py.float c4 = Ok p95)
      (data_lines sample_lines) rows
    ∧ ∃ total_mean total_p90 total_p95,
        running_total (rows.*1.*1) = Ok total_mean
        ∧ running_total (rows.*1.*2) = Ok total_p90
        ∧ running_total (rows.*2) = Ok total_p95
        ∧ average total_mean (length (data_lines sample_lines))
          = Ok (Py.Float (S754_finite false 7505999378950827 (-52)))
        ∧ average total_p90 (length (data_lines sample_lines))
          = Ok (Py.Float (S754_finite false 6192449487634432 (-51)))
        ∧ average total_p95 (length (data_lines sample_lines))
          = Ok (Py.Float (S754_finite false 8350424309082795 (-51))).
Proof.
  apply (averages_of_columns_2_3_4 (data_lines sample_lines)).
  vm_compute. reflexivity.
Defined.

(** C3 as stated fails: counted from 0, the columns 3, 4 and 5 are p90,
    p95 and the field after them.  On a row of seven fields the script
    reads 1.5, 2.5 and 3.5, the columns 2, 3 and 4, where the columns 3, 4
    and 5 hold 2.5, 3.5 and 4.5; and a row of five fields has no column 5
    and is read all the same. *)
Lemma columns_3_4_5_are_not_read :
  ( let line := "m1 5 1.5 2.5 3.5 4.5 5.5" +:+ Py.nl in
    let parts := Py.split line in
    parts = ["m1"; "5"; "1.5"; "2.5"; "3.5"; "4.5"; "5.5"]
    ∧ parse_line line
      = (a ← Py.float "1.5"; b ← Py.float "2.5"; c ← Py.float "3.5"; Ok (a, b, c))
    ∧ parse_line line
      ≠ (a ← Py.index parts 3 ≫= Py.float;
         b ← Py.index parts 4 ≫= Py.float;
         c ← Py.index parts 5 ≫= Py.float;
         Ok (a, b, c)) )
  ∧
  ( let line := "m1 5 1.5 2.5 3.5" +:+ Py.nl in
    Py.index (Py.split line) 5 = Raise IndexError
    ∧ parse_line line
      = (a ← Py.float "1.5"; b ← Py.float "2.5"; c ← Py.float "3.5"; Ok (a, b, c))
    ∧ averages [line]
      = (a ← Py.float "1.5"; b ← Py.float "2.5"; c ← Py.float "3.5";
         Ok (Py.Float a, Py.Float b, Py.Float c)) ).
Proof.
  cbv zeta. split; split_and!; try (vm_compute; reflexivity).
  vm_compute. discriminate.
Qed.

(** ** Lines that start with white space *)

Lemma totals_parse lines : ∀ t1 t2 t3 r line,
  totals t1 t2 t3 lines = Ok r -> line ∈ lines -> ∃ row, parse_line line = Ok row.
Proof.
  induction lines as [|l lines IH]; intros t1 t2 t3 r line H Hin.
  - by apply not_elem_of_nil in Hin.
  - cbn [totals] in H.
    destruct (parse_line l) as [[[mean p90] p95]|] eqn:Hp; simpl in H; [|done].
    destruct (Py.add t1 _) as [u1|]; simpl in H; [|done].
    destruct (Py.add t2 _) as [u2|]; simpl in H; [|done].
    destruct (Py.add t3 _) as [u3|]; simpl in H; [|done].
    apply elem_of_cons in Hin as [->|Hin]; [by eexists | by eapply IH].
Qed.

(** Every line of a block is parsed before the block is written. *)
Lemma averages_parse lines r line :
  averages lines = Ok r -> line ∈ lines -> ∃ row, parse_line line = Ok row.
Proof.
  unfold averages. intros H Hin.
  destruct (totals _ _ _ lines) as [t|] eqn:Ht; simpl in H; [|done].
  by eapply totals_parse.
Qed.

Lemma isspace_not_prefix c rest p0 p :
  Py.isspace c = true -> Py.isspace p0 = false ->
  Py.startswith (String c rest) (String p0 p) = false.
Proof.
  intros Hc Hp. unfold Py.startswith. simpl.
  destruct (ascii_dec p0 c) as [->|]; [congruence | done].
Qed.

(** ** Lines past the capacity of the loop *)

Section Capacity.

Variable s : sweep.

Lemma iteration_lines_take data i n :
  i < n -> iteration_lines s (take (n * count s) data) i = iteration_lines s data i.
Proof.
  intros Hi. rewrite !iteration_lines_take_drop.
  apply list_eq. intros j.
  destruct (decide (j < count s)) as [Hj|Hj].
  - rewrite !lookup_take_lt, !lookup_drop by done.
    rewrite lookup_take_lt; [done | nia].
  - by rewrite !lookup_take_ge by lia.
Qed.

Lemma block_report_lines data1 data2 i d f :
  iteration_lines s data1 i = iteration_lines s data2 i ->
  block_report s data1 i d f = block_report s data2 i d f.
Proof. unfold block_report. by intros ->. Qed.

Lemma reports_lines data1 data2 combos i :
  (∀ k, k < length combos ->
     iteration_lines s data1 (i + k) = iteration_lines s data2 (i + k)) ->
  reports s data1 i combos = reports s data2 i combos.
Proof.
  revert i. induction combos as [|[d f] combos IH]; intros i H; [done |].
  cbn [reports].
  rewrite (block_report_lines data1 data2).
  - rewrite (IH (S i)); [done |].
    intros k Hk. replace (S i + k) with (i + S k) by lia. apply H. simpl. lia.
  - rewrite <- (Nat.add_0_r i). apply H. simpl. lia.
Qed.

(** The passes see the first [capacity s] data lines only. *)
Lemma reports_take data :
  reports s (take (capacity s) data) 0 (combinations s)
  = reports s data 0 (combinations s).
Proof.
  apply reports_lines. intros k Hk. rewrite <- length_combinations.
  by apply iteration_lines_take.
Qed.

Lemma aggregate_take all_lines1 all_lines2 w :
  take (capacity s) (data_lines all_lines1)
  = take (capacity s) (data_lines all_lines2) ->
  aggregate s all_lines1 w = aggregate s all_lines2 w.
Proof.
  intros H. rewrite !aggregate_reports.
  by rewrite <- (reports_take (data_lines all_lines1)), H, reports_take.
Qed.

End Capacity.

(** C9. The data lines past the first D×F×count are dropped without a
    trace: two inputs that agree on their first D×F×count data lines give
    the same run (the same result, the same files, the same output on the
    terminal); lines added after D×F×count data lines change nothing; and
    every line of a block stands below that bound in the data lines. *)
Theorem lines_past_capacity_are_dropped (s : sweep) (all_lines : list string)
    (w : world) :
  (∀ all_lines',
     take (capacity s) (data_lines all_lines)
     = take (capacity s) (data_lines all_lines') ->
     aggregate s all_lines w = aggregate s all_lines' w)
  ∧ (capacity s ≤ length (data_lines all_lines) ->
     ∀ extra, aggregate s (all_lines ++ extra) w = aggregate s all_lines w)
  ∧ (∀ i j line,
       i < length (combinations s) ->
       iteration_lines s (data_lines all_lines) i !! j = Some line ->
       i * count s + j < capacity s
       ∧ data_lines all_lines !! (i * count s + j) = Some line).
Proof.
  split_and!.
  - intros all_lines'. apply aggregate_take.
  - intros Hfull extra. apply aggregate_take.
    by rewrite data_lines_app, take_app_le.
  - intros i j line Hi Hl.
    apply iteration_lines_lookup in Hl as [Hj Hl]. split; [|done].
    rewrite <- length_combinations. nia.
Qed.

(** ** Malformed rows *)

Lemma float_raises s e : Py.float s = Raise e -> e = ValueError.
Proof.
  unfold Py.float. destruct (Py.drop_underscores _ _) as [t|]; [|congruence].
  destruct (Py.parse_sign t) as [neg u].
  destruct (_ || _); [done |]. destruct (String.eqb _ _); [done |].
  destruct (Py.parse_decimal u) as [[m x]|]; congruence.
Qed.

Lemma parse_line_raises line e :
  parse_line line = Raise e -> e = ValueError ∨ e = IndexError.
Proof.
  unfold parse_line, Py.index. intros H.
  destruct (Py.split line !! 2) as [c2|]; simpl in H; [|right; congruence].
  destruct (Py.float c2) eqn:H2; simpl in H;
    [|left; apply float_raises in H2; congruence].
  destruct (Py.split line !! 3) as [c3|]; simpl in H; [|right; congruence].
  destruct (Py.float c3) eqn:H3; simpl in H;
    [|left; apply float_raises in H3; congruence].
  destruct (Py.split line !! 4) as [c4|]; simpl in H; [|right; congruence].
  destruct (Py.float c4) eqn:H4; simpl in H;
    [|left; apply float_raises in H4; congruence].
  done.
Qed.

(** A total is the [int] 0 or a float, and adding a float to it gives a
    float. *)
Lemma add_to_total t v :
  t = Py.Int 0 ∨ (∃ x, t = Py.Float x) -> ∃ y, Py.add t (Py.Float v) = Ok (Py.Float y).
Proof. intros [->|[x ->]]; by eexists. Qed.

Lemma totals_raises lines : ∀ t1 t2 t3 e,
  t1 = Py.Int 0 ∨ (∃ x, t1 = Py.Float x) ->
  t2 = Py.Int 0 ∨ (∃ x, t2 = Py.Float x) ->
  t3 = Py.Int 0 ∨ (∃ x, t3 = Py.Float x) ->
  totals t1 t2 t3 lines = Raise e -> e = ValueError ∨ e = IndexError.
Proof.
  induction lines as [|line lines IH]; intros t1 t2 t3 e I1 I2 I3 H; [done |].
  cbn [totals] in H.
  destruct (parse_line line) as [[[mean p90] p95]|] eqn:Hp; simpl in H;
    [|apply parse_line_raises in Hp; congruence].
  destruct (add_to_total t1 mean I1) as [y1 E1].
  destruct (add_to_total t2 p90 I2) as [y2 E2].
  destruct (add_to_total t3 p95 I3) as [y3 E3].
  rewrite E1, E2, E3 in H. simpl in H.
  eapply IH; [| | |exact H]; right; by eexists.
Qed.

(** A block with a line that does not parse is not averaged: the pass
    raises a parse error. *)
Lemma averages_bad_line lines line e0 :
  line ∈ lines -> parse_line line = Raise e0 ->
  ∃ e, averages lines = Raise e ∧ (e = ValueError ∨ e = IndexError).
Proof.
  intros Hin Hp. unfold averages.
  destruct (totals _ _ _ lines) as [r|e] eqn:Ht.
  - destruct (totals_parse _ _ _ _ _ _ Ht Hin) as [row Hrow]. congruence.
  - exists e. split; [done |].
    eapply totals_raises; [| | |exact Ht]; by left.
Qed.

Lemma block_report_averages_raise s data i d f e :
  averages (iteration_lines s data i) = Raise e ->
  block_report s data i d f = Raise e.
Proof. unfold block_report. by intros ->. Qed.

(** The pass after the completed ones is the one that raised. *)
Lemma reports_raised s data combos i e :
  (reports s data i combos).2 = Some e ->
  ∃ d f,
    combos !! length (reports s data i combos).1 = Some (d, f)
    ∧ block_report s data (i + length (reports s data i combos).1) d f = Raise e.
Proof.
  revert i. induction combos as [|[d f] combos IH]; intros i; [done |].
  cbn [reports].
  destruct (block_report s data i d f) as [t|e0] eqn:Hb; simpl.
  - specialize (IH (S i)).
    destruct (reports s data (S i) combos) as [ts r]. simpl in *.
    intros H. destruct (IH H) as (d' & f' & ? & ?).
    exists d', f'. by rewrite Nat.add_succ_r.
  - intros [= <-]. exists d, f. by rewrite Nat.add_0_r.
Qed.

(** C7. A data line of a block whose third column is not numeric is
    fatal: the aggregation phase raises, at that block or at an earlier one
    that does not parse either, before anything of the failing block is
    written, its summary included; the report then holds the header and the
    complete reports of the passes before the failing one.  When the
    earlier passes all completed, the exception is a parse error. *)
Theorem malformed_third_column_is_fatal (s : sweep) (all_lines : list string)
    (w : world) (k : nat) (line col : string) :
  k < length (combinations s) ->
  line ∈ iteration_lines s (data_lines all_lines) k ->
  Py.split line !! 2 = Some col ->
  Py.float col = Raise ValueError ->
  let data := data_lines all_lines in
  let out := aggregate s all_lines w in
  ∃ e j written,
    out.1 = Raise e
    ∧ j ≤ k
    ∧ (∃ d f, combinations s !! j = Some (d, f)
              ∧ averages (iteration_lines s data j) = Raise e)
    ∧ (j = k -> e = ValueError ∨ e = IndexError)
    ∧ length written = j
    ∧ (∀ i text, written !! i = Some text ->
         ∃ d f, combinations s !! i = Some (d, f)
                ∧ block_report s data i d f = Ok text)
    ∧ files out.2 !! "computed.out" = Some (header +:+ cat written)
    ∧ console out.2 = console w ++ (progress <$> take j (combinations s)).
Proof.
  intros Hk Hin Hcol Hfloat data out.
  assert (parse_line line = Raise ValueError) as Hparse.
  { unfold parse_line, Py.index. by rewrite Hcol; simpl; rewrite Hfloat. }
  destruct (averages_bad_line _ _ _ Hin Hparse) as (ek & Hek & Hkind).
  destruct (lookup_lt_is_Some_2 (combinations s) k Hk) as [[dk fk] Hck].
  destruct (reports_stop s data (combinations s) 0 k dk fk ek Hck
              (block_report_averages_raise _ _ _ _ _ _ Hek)) as (e & He & Hlen).
  destruct (reports_raised s data _ 0 e He) as (d & f & Hcj & Hbj).
  exists e, (length (reports s data 0 (combinations s)).1),
    (reports s data 0 (combinations s)).1.
  unfold out. rewrite aggregate_reports. fold data. cbn [fst snd files console].
  rewrite He. split_and!.
  - done.
  - exact Hlen.
  - exists d, f. split; [done |]. by apply block_report_raise in Hbj.
  - intros Hj. rewrite Hj in Hbj. simpl in Hbj.
    apply block_report_raise in Hbj. fold data in Hek.
    assert (e = ek) as -> by congruence. exact Hkind.
  - done.
  - intros i text Hi. by apply reports_lookup in Hi.
  - by rewrite lookup_insert_eq.
  - done.
Qed.

(** The theorem at a sample input: the script's sweep, with six data
    lines of which the last, in the second block, has the text "n/a" for
    its third column. *)
Lemma malformed_third_column_sample :
  let all_lines :=
    replicate 5 ("m1 5 1.5 2.5 3.5" +:+ Py.nl) ++ ["m2 5 n/a 2.5 3.5" +:+ Py.nl] in
  let data := data_lines all_lines in
  let out := aggregate script_sweep all_lines empty_world in
  ∃ e j written,
    out.1 = Raise e
    ∧ j ≤ 1
    ∧ (∃ d f, combinations script_sweep !! j = Some (d, f)
              ∧ averages (iteration_lines script_sweep data j) = Raise e)
    ∧ (j = 1 -> e = ValueError ∨ e = IndexError)
    ∧ length written = j
    ∧ (∀ i text, written !! i = Some text ->
         ∃ d f, combinations script_sweep !! i = Some (d, f)
                ∧ block_report script_sweep data i d f = Ok text)
    ∧ files out.2 !! "computed.out" = Some (header +:+ cat written)
    ∧ console out.2
      = console empty_world ++ (progress <$> take j (combinations script_sweep)).
Proof.
  apply (malformed_third_column_is_fatal script_sweep
           (replicate 5 ("m1 5 1.5 2.5 3.5" +:+ Py.nl)
            ++ ["m2 5 n/a 2.5 3.5" +:+ Py.nl])
           empty_world 1 ("m2 5 n/a 2.5 3.5" +:+ Py.nl) "n/a").
  - vm_compute. lia.
  - vm_compute. apply list_elem_of_here.
  - reflexivity.
  - reflexivity.
Defined.

(** ** Integers as floats *)

Section IntToFloat.

Local Open Scope Z_scope.

Lemma digits2_pos_size p : digits2_pos p = Pos.size p.
Proof. induction p as [p IH|p IH|]; simpl; by rewrite ?IH. Qed.

Lemma Zdigits2_log2 p : Zdigits2 (Zpos p) = Z.log2 (Zpos p) + 1.
Proof.
  unfold Zdigits2. rewrite digits2_pos_size.
  destruct p as [p|p|]; simpl; lia.
Qed.

Lemma Zdigits2_bounds p :
  2 ^ (Zdigits2 (Zpos p) - 1) <= Zpos p < 2 ^ Zdigits2 (Zpos p).
Proof.
  rewrite Zdigits2_log2.
  replace (Z.log2 (Z.pos p) + 1 - 1) with (Z.log2 (Z.pos p)) by lia.
  apply Z.log2_spec. lia.
Qed.

Lemma Zdigits2_unique m k :
  0 < k -> 2 ^ (k - 1) <= m < 2 ^ k -> Zdigits2 m = k.
Proof.
  intros Hk Hm.
  assert (0 < m) as Hpos by (pose proof (Z.pow_pos_nonneg 2 (k - 1)); lia).
  destruct m as [|p|p]; [lia | | lia].
  rewrite Zdigits2_log2. rewrite (Z.log2_unique (Zpos p) (k - 1)); [lia | lia |].
  by replace (Z.succ (k - 1)) with k by lia.
Qed.

Lemma shr_1_m mrs : 0 <= shr_m mrs -> shr_m (shr_1 mrs) = shr_m mrs / 2.
Proof.
  destruct mrs as [m r t]. simpl. intros Hm.
  destruct m as [|[p|p|]|p]; cbn [shr_m]; try done;
    Z.div_mod_to_equations; lia.
Qed.

Lemma iter_pos_shr_1_m p : ∀ mrs,
  0 <= shr_m mrs -> shr_m (SpecFloat.iter_pos shr_1 p mrs) = shr_m mrs / 2 ^ Zpos p.
Proof.
  induction p as [p IH|p IH|]; intros mrs Hm; cbn [SpecFloat.iter_pos].
  - assert (0 <= shr_m (shr_1 mrs)) as H1
      by (rewrite shr_1_m by done; by apply Z.div_pos).
    assert (0 <= shr_m (SpecFloat.iter_pos shr_1 p (shr_1 mrs))) as H2
      by (rewrite IH by done; apply Z.div_pos; lia).
    rewrite IH, IH, shr_1_m by done.
    rewrite !Z.div_div by lia. f_equal.
    replace (Zpos p~1) with (1 + Zpos p + Zpos p) by lia.
    rewrite !Z.pow_add_r, Z.pow_1_r by lia. lia.
  - assert (0 <= shr_m (SpecFloat.iter_pos shr_1 p mrs)) as H2
      by (rewrite IH by done; apply Z.div_pos; lia).
    rewrite IH, IH by done.
    rewrite !Z.div_div by lia. f_equal.
    replace (Zpos p~0) with (Zpos p + Zpos p) by lia.
    by rewrite Z.pow_add_r by lia.
  - by apply shr_1_m.
Qed.

(** Shifting right by [n] divides the mantissa by [2^n] and adds [n] to
    the exponent. *)
Lemma shr_spec mrs e n :
  0 <= shr_m mrs -> 0 <= n ->
  (shr mrs e n).2 = e + n ∧ shr_m (shr mrs e n).1 = shr_m mrs / 2 ^ n.
Proof.
  intros Hm Hn. destruct n as [|p|p]; [| |lia]; simpl.
  - split; [lia |]. by rewrite Z.div_1_r.
  - split; [done |]. by apply iter_pos_shr_1_m.
Qed.

Lemma shr_record_of_loc_m m l : shr_m (shr_record_of_loc m l) = m.
Proof. by destruct l as [|[]]. Qed.

Lemma round_nearest_even_cases m l :
  round_nearest_even m l = m ∨ round_nearest_even m l = m + 1.
Proof.
  destruct l as [|[]]; simpl; auto. destruct (Z.even m); auto.
Qed.

Lemma fexp_normal x : -1021 <= x -> fexp Py.prec Py.emax x = x - 53.
Proof. unfold fexp, emin, Py.prec, Py.emax. lia. Qed.

(** Rounding a mantissa of at least 53 bits whose value is below [2^1023]
    gives a finite float. *)
Lemma binary_round_aux_finite sx mx ex lx :
  53 <= Zdigits2 (Zpos mx) ->
  -1021 <= Zdigits2 (Zpos mx) + ex <= 1023 ->
  ∃ m e, binary_round_aux Py.prec Py.emax sx (Zpos mx) ex lx = S754_finite sx m e.
Proof.
  set (D := Zdigits2 (Zpos mx)). intros HD Hrange.
  pose proof (Zdigits2_bounds mx) as Hmx. fold D in Hmx.
  unfold binary_round_aux, shr_fexp. fold D.
  rewrite fexp_normal by lia.
  destruct (shr_spec (shr_record_of_loc (Zpos mx) lx) ex (D + ex - 53 - ex))
    as [He' Hm']; [by rewrite shr_record_of_loc_m | lia |].
  destruct (shr _ ex _) as [mrs' e']. cbn [fst snd] in He', Hm'.
  rewrite shr_record_of_loc_m in Hm'.
  replace (D + ex - 53 - ex) with (D - 53) in Hm' by lia.
  assert (2 ^ 52 <= shr_m mrs' < 2 ^ 53) as Hb.
  { rewrite Hm'.
    assert (2 ^ D = 2 ^ 53 * 2 ^ (D - 53)) as E1
      by (rewrite <- Z.pow_add_r by lia; f_equal; lia).
    assert (2 ^ (D - 1) = 2 ^ 52 * 2 ^ (D - 53)) as E2
      by (rewrite <- Z.pow_add_r by lia; f_equal; lia).
    assert (0 < 2 ^ (D - 53)) by (apply Z.pow_pos_nonneg; lia).
    split.
    - apply Z.div_le_lower_bound; lia.
    - apply Z.div_lt_upper_bound; lia. }
  set (m1 := round_nearest_even (shr_m mrs') (loc_of_shr_record mrs')).
  assert (2 ^ 52 <= m1 <= 2 ^ 53) as Hm1.
  { unfold m1.
    destruct (round_nearest_even_cases (shr_m mrs') (loc_of_shr_record mrs'))
      as [-> | ->]; lia. }
  assert (Zdigits2 m1 = 53 ∨ (Zdigits2 m1 = 54 ∧ m1 = 2 ^ 53)) as Hd1.
  { destruct (decide (m1 < 2 ^ 53)).
    - left. apply Zdigits2_unique; [lia |]. simpl (53 - 1). lia.
    - right. assert (m1 = 2 ^ 53) as -> by lia. done. }
  assert (fexp Py.prec Py.emax (Zdigits2 m1 + e') = Zdigits2 m1 + e' - 53) as ->
    by (apply fexp_normal; lia).
  destruct (shr_spec (shr_record_of_loc m1 loc_Exact) e' (Zdigits2 m1 + e' - 53 - e'))
    as [He'' Hm'']; [rewrite shr_record_of_loc_m; lia | lia |].
  destruct (shr _ e' _) as [mrs'' e'']. cbn [fst snd] in He'', Hm''.
  rewrite shr_record_of_loc_m in Hm''.
  assert (2 ^ 52 <= shr_m mrs'' ∧ e'' <= 971) as [Hpos Hle].
  { rewrite Hm'', He''. destruct Hd1 as [-> | [-> ->]].
    - replace (53 + e' - 53 - e') with 0 by lia.
      rewrite Z.div_1_r. lia.
    - replace (54 + e' - 53 - e') with 1 by lia.
      split; [done | lia]. }
  destruct (shr_m mrs'') as [|m|m] eqn:Em; [lia | | lia].
  unfold Py.emax, Py.prec.
  replace (e'' <=? 1024 - 53) with true by (symmetry; apply Z.leb_le; lia).
  by eexists _, _.
Qed.

Lemma Pos_iter_xO p k : Zpos (Pos.iter xO p k) = Zpos p * 2 ^ Zpos k.
Proof.
  induction k as [|k IH] using Pos.peano_ind.
  - simpl. lia.
  - rewrite Pos.iter_succ, Pos2Z.inj_succ, Z.pow_succ_r by lia.
    change (Zpos (Pos.iter xO p k)~0) with (2 * Zpos (Pos.iter xO p k)).
    rewrite IH. lia.
Qed.

(** A positive [int] below [2^1023] converts to a finite float. *)
Lemma float_of_int_finite z :
  0 < z < 2 ^ 1023 -> ∃ m e, Py.float_of_int z = Ok (S754_finite false m e).
Proof.
  intros Hz. destruct z as [|p|p]; [lia | | lia].
  pose proof (Zdigits2_bounds p) as Hp.
  set (d := Zdigits2 (Zpos p)) in *.
  assert (1 <= d <= 1023) as Hd.
  { split.
    - unfold d. rewrite Zdigits2_log2. pose proof (Z.log2_nonneg (Zpos p)). lia.
    - destruct (decide (d <= 1023)); [done |].
      assert (2 ^ 1023 <= 2 ^ (d - 1)) by (apply Z.pow_le_mono_r; lia). lia. }
  cut (∃ m e, binary_round Py.prec Py.emax false p 0 = S754_finite false m e).
  { intros (m & e & H). unfold Py.float_of_int, binary_normalize.
    rewrite H. by eexists _, _. }
  unfold binary_round, shl_align. rewrite Z.add_0_r.
  change (Zpos (digits2_pos p)) with d.
  rewrite fexp_normal by lia.
  destruct (d - 53 - 0) as [|k|k] eqn:Ek.
  - apply binary_round_aux_finite; fold d; lia.
  - apply binary_round_aux_finite; fold d; lia.
  - assert (Zdigits2 (Zpos (Pos.iter xO p k)) = 53) as HD.
    { apply Zdigits2_unique; [lia |]. rewrite Pos_iter_xO.
      assert (Zpos k = 53 - d) as -> by lia.
      assert (2 ^ 53 = 2 ^ d * 2 ^ (53 - d)) as ->
        by (rewrite <- Z.pow_add_r by lia; f_equal; lia).
      assert (2 ^ (53 - 1) = 2 ^ (d - 1) * 2 ^ (53 - d)) as ->
        by (rewrite <- Z.pow_add_r by lia; f_equal; lia).
      assert (0 < 2 ^ (53 - d)) by (apply Z.pow_pos_nonneg; lia).
      nia. }
    apply binary_round_aux_finite; rewrite HD; lia.
Qed.

End IntToFloat.

(** ** The summary line *)

Lemma digits_point_two_app d a b :
  all_digits d = true -> d ≠ "" ->
  Py.is_digit a = true -> Py.is_digit b = true ->
  digits_point_two (d +:+ "." +:+ String a (String b "")) = true.
Proof.
  intros Hd Hne Ha Hb. induction d as [|c d IH]; [done |].
  rewrite string_app_cons. cbn [digits_point_two].
  simpl in Hd. apply andb_true_iff in Hd as [-> Hd]. simpl.
  destruct d as [|c' d].
  - rewrite string_app_nil_l. simpl. by rewrite Ha, Hb.
  - rewrite IH by done. apply orb_true_r.
Qed.

Lemma two_decimal_places_digits d a b :
  all_digits d = true -> d ≠ "" ->
  Py.is_digit a = true -> Py.is_digit b = true ->
  two_decimal_places (d +:+ "." +:+ String a (String b "")) = true.
Proof.
  intros Hd Hne Ha Hb.
  pose proof (digits_point_two_app d a b Hd Hne Ha Hb) as H.
  destruct d as [|c d]; [done |].
  rewrite string_app_cons in *. unfold two_decimal_places.
  destruct (Ascii.eqb c "-") eqn:Ec; [|done].
  apply Ascii.eqb_eq in Ec as ->. simpl in Hd. discriminate.
Qed.

Lemma div_half_even_nonneg n d : (0 <= n)%Z -> (0 < d)%Z -> (0 <= Py.div_half_even n d)%Z.
Proof.
  intros Hn Hd. unfold Py.div_half_even.
  assert (0 <= n `div` d)%Z by (apply Z.div_pos; lia).
  destruct (_ ?= _)%Z; [destruct (Z.even _) | |]; lia.
Qed.

Lemma hundredths_nonneg m e : (0 <= Py.hundredths m e)%Z.
Proof.
  unfold Py.hundredths. destruct (0 <=? e)%Z eqn:He.
  - apply Z.leb_le in He.
    assert (0 < 2 ^ e)%Z by (apply Z.pow_pos_nonneg; lia). lia.
  - apply Z.leb_gt in He. apply div_half_even_nonneg; [lia |].
    apply Z.pow_pos_nonneg; lia.
Qed.

Lemma fixed2_two_decimal_places neg h :
  (0 <= h)%Z -> two_decimal_places (Py.fixed2 neg h) = true.
Proof.
  intros Hh. unfold Py.fixed2, Py.two_digits.
  destruct (pretty_Z_nonneg_digits (h `div` 100)) as [Hd Hne];
    [apply Z.div_pos; lia |].
  set (a := pretty_N_char (Z.to_N ((h `mod` 100) `div` 10))).
  set (b := pretty_N_char (Z.to_N (h `mod` 10))).
  pose proof (is_digit_pretty_N_char (Z.to_N ((h `mod` 100) `div` 10))) as Ha.
  pose proof (is_digit_pretty_N_char (Z.to_N (h `mod` 10))) as Hb.
  fold a in Ha. fold b in Hb.
  destruct neg.
  - rewrite string_app_cons, string_app_nil_l.
    unfold two_decimal_places. simpl (Ascii.eqb _ _).
    by apply digits_point_two_app.
  - rewrite string_app_nil_l. by apply two_decimal_places_digits.
Qed.

(** A finite number is written with two decimal places; the others are
    written as nan, inf or -inf. *)
Lemma format_2f_places a text :
  Py.format_2f a = Ok text ->
  if is_finite a then two_decimal_places text = true
  else text ∈ ["nan"; "inf"; "-inf"].
Proof.
  unfold Py.format_2f, is_finite.
  destruct (Py.to_float a) as [x|]; simpl; [|done].
  intros [= <-]. destruct x as [neg|neg| |neg m e]; simpl.
  - by apply fixed2_two_decimal_places.
  - destruct neg; set_solver.
  - set_solver.
  - apply fixed2_two_decimal_places, hundredths_nonneg.
Qed.

Lemma summary_text datasize freq avg_mean avg_p90 avg_p95 text :
  summary datasize freq avg_mean avg_p90 avg_p95 = Ok text ->
  ∃ m p90 p95,
    Py.format_2f avg_mean = Ok m
    ∧ Py.format_2f avg_p90 = Ok p90
    ∧ Py.format_2f avg_p95 = Ok p95
    ∧ text = "# datasize=" +:+ Py.str datasize +:+ " freq=" +:+ freq
             +:+ " avg_mean=" +:+ m +:+ " avg_p90=" +:+ p90
             +:+ " avg_p95=" +:+ p95 +:+ Py.nl +:+ Py.nl.
Proof.
  unfold summary. intros H.
  destruct (Py.format_2f avg_mean) as [m|]; simpl in H; [|done].
  destruct (Py.format_2f avg_p90) as [p90|]; simpl in H; [|done].
  destruct (Py.format_2f avg_p95) as [p95|]; simpl in H; [|done].
  injection H as <-. by exists m, p90, p95.
Qed.

(** C8 (as amended). A pass that completes appends to the report the
    rows of its block and then the line "# datasize=<d> freq=<f>
    avg_mean=<m> avg_p90=<p90> avg_p95=<p95>" and a blank line, where each
    of the three averages is written with [.2f]: with exactly two decimal
    places when it is finite, whatever the precision of the input, and as
    nan, inf or -inf when it is not. *)
Theorem summary_line_format (s : sweep) (data : list string) (iteration : nat)
    (datasize : Z) (freq : string) (w : world) (old : string) :
  files w !! "computed.out" = Some old ->
  (aggregate_block s data iteration datasize freq w).1 = Ok () ->
  ∃ avg_mean avg_p90 avg_p95 m p90 p95,
    averages (iteration_lines s data iteration) = Ok (avg_mean, avg_p90, avg_p95)
    ∧ Py.format_2f avg_mean = Ok m
    ∧ Py.format_2f avg_p90 = Ok p90
    ∧ Py.format_2f avg_p95 = Ok p95
    ∧ files (aggregate_block s data iteration datasize freq w).2 !! "computed.out"
      = Some (old +:+ cat (block_rows s data iteration)
              +:+ "# datasize=" +:+ Py.str datasize +:+ " freq=" +:+ freq
              +:+ " avg_mean=" +:+ m +:+ " avg_p90=" +:+ p90
              +:+ " avg_p95=" +:+ p95 +:+ Py.nl +:+ Py.nl)
    ∧ (if is_finite avg_mean then two_decimal_places m = true
       else m ∈ ["nan"; "inf"; "-inf"])
    ∧ (if is_finite avg_p90 then two_decimal_places p90 = true
       else p90 ∈ ["nan"; "inf"; "-inf"])
    ∧ (if is_finite avg_p95 then two_decimal_places p95 = true
       else p95 ∈ ["nan"; "inf"; "-inf"]).
Proof.
  intros Hold Hok.
  destruct (block_report s data iteration datasize freq) as [text|e] eqn:Hb.
  - rewrite (aggregate_block_ok _ _ _ _ _ _ _ _ Hb Hold). cbn [snd files].
    apply block_report_ok in Hb as (a & b & c & sm & Ha & Hs & ->).
    apply summary_text in Hs as (m & p90 & p95 & Hm & H90 & H95 & ->).
    exists a, b, c, m, p90, p95. split_and!; try done.
    + by rewrite lookup_insert_eq.
    + by apply format_2f_places.
    + by apply format_2f_places.
    + by apply format_2f_places.
  - by rewrite (aggregate_block_raise _ _ _ _ _ _ _ Hb) in Hok.
Qed.

(** The theorem at the first pass over the sample input, the report
    holding the header. *)
Lemma summary_line_format_sample :
  let s := script_sweep in
  let data := data_lines sample_lines in
  let w := (write_file "computed.out" header empty_world).2 in
  ∃ avg_mean avg_p90 avg_p95 m p90 p95,
    averages (iteration_lines s data 0) = Ok (avg_mean, avg_p90, avg_p95)
    ∧ Py.format_2f avg_mean = Ok m
    ∧ Py.format_2f avg_p90 = Ok p90
    ∧ Py.format_2f avg_p95 = Ok p95
    ∧ files (aggregate_block s data 0 3000 "0.5s" w).2 !! "computed.out"
      = Some (header +:+ cat (block_rows s data 0)
              +:+ "# datasize=" +:+ Py.str 3000 +:+ " freq=" +:+ "0.5s"
              +:+ " avg_mean=" +:+ m +:+ " avg_p90=" +:+ p90
              +:+ " avg_p95=" +:+ p95 +:+ Py.nl +:+ Py.nl)
    ∧ (if is_finite avg_mean then two_decimal_places m = true
       else m ∈ ["nan"; "inf"; "-inf"])
    ∧ (if is_finite avg_p90 then two_decimal_places p90 = true
       else p90 ∈ ["nan"; "inf"; "-inf"])
    ∧ (if is_finite avg_p95 then two_decimal_places p95 = true
       else p95 ∈ ["nan"; "inf"; "-inf"]).
Proof.
  apply (summary_line_format script_sweep (data_lines sample_lines) 0 3000 "0.5s"
           (write_file "computed.out" header empty_world).2 header).
  - vm_compute. reflexivity.
  - vm_compute. reflexivity.
Defined.

(** C8 as stated fails when an average is not finite.  A row whose mean
    reads "nan" (a text that [float] accepts) gives the summary
    "avg_mean=nan"; and two rows with the mean 1e308 have a total that
    overflows, which gives "avg_mean=inf".  Neither has two decimal
    places. *)
Lemma summary_line_without_decimals :
  ( let all_lines := ["m1 5 nan 2.5 3.5" +:+ Py.nl] in
    let out := aggregate script_sweep all_lines empty_world in
    out.1 = Ok ()
    ∧ String.prefix
        (header +:+ "m1 5 nan 2.5 3.5" +:+ Py.nl
         +:+ "# datasize=3000 freq=0.5s avg_mean=nan avg_p90=2.50 avg_p95=3.50"
         +:+ Py.nl +:+ Py.nl)
        (default "" (files out.2 !! "computed.out")) = true
    ∧ two_decimal_places "nan" = false )
  ∧
  ( let all_lines := replicate 2 ("m1 5 1e308 2.5 3.5" +:+ Py.nl) in
    let out := aggregate script_sweep all_lines empty_world in
    out.1 = Ok ()
    ∧ String.prefix
        (header +:+ "m1 5 1e308 2.5 3.5" +:+ Py.nl +:+ "m1 5 1e308 2.5 3.5" +:+ Py.nl
         +:+ "# datasize=3000 freq=0.5s avg_mean=inf avg_p90=2.50 avg_p95=3.50"
         +:+ Py.nl +:+ Py.nl)
        (default "" (files out.2 !! "computed.out")) = true
    ∧ two_decimal_places "inf" = false ).
Proof. cbv zeta. split; split_and!; vm_compute; reflexivity. Qed.

(** ** Short and empty blocks *)

Section ShortBlocks.

Lemma totals_complete lines : ∀ t1 t2 t3,
  t1 = Py.Int 0 ∨ (∃ x, t1 = Py.Float x) ->
  t2 = Py.Int 0 ∨ (∃ x, t2 = Py.Float x) ->
  t3 = Py.Int 0 ∨ (∃ x, t3 = Py.Float x) ->
  Forall (λ line, ∃ row, parse_line line = Ok row) lines ->
  ∃ r1 r2 r3,
    totals t1 t2 t3 lines = Ok (r1, r2, r3)
    ∧ (r1 = Py.Int 0 ∨ (∃ x, r1 = Py.Float x))
    ∧ (r2 = Py.Int 0 ∨ (∃ x, r2 = Py.Float x))
    ∧ (r3 = Py.Int 0 ∨ (∃ x, r3 = Py.Float x)).
Proof.
  induction lines as [|line lines IH]; intros t1 t2 t3 I1 I2 I3 Hall.
  - by exists t1, t2, t3.
  - apply Forall_cons in Hall as [[[[mean p90] p95] Hp] Hall].
    cbn [totals]. rewrite Hp. simpl.
    destruct (add_to_total t1 mean I1) as [y1 ->].
    destruct (add_to_total t2 p90 I2) as [y2 ->].
    destruct (add_to_total t3 p95 I3) as [y3 ->]. simpl.
    apply IH; [right; by eexists.. | done].
Qed.

Lemma totals_shape lines : ∀ t1 t2 t3 r1 r2 r3,
  t1 = Py.Int 0 ∨ (∃ x, t1 = Py.Float x) ->
  t2 = Py.Int 0 ∨ (∃ x, t2 = Py.Float x) ->
  t3 = Py.Int 0 ∨ (∃ x, t3 = Py.Float x) ->
  totals t1 t2 t3 lines = Ok (r1, r2, r3) ->
  (r1 = Py.Int 0 ∨ (∃ x, r1 = Py.Float x))
  ∧ (r2 = Py.Int 0 ∨ (∃ x, r2 = Py.Float x))
  ∧ (r3 = Py.Int 0 ∨ (∃ x, r3 = Py.Float x)).
Proof.
  induction lines as [|line lines IH]; intros t1 t2 t3 r1 r2 r3 I1 I2 I3 H.
  - by injection H as <- <- <-.
  - cbn [totals] in H.
    destruct (parse_line line) as [[[mean p90] p95]|]; simpl in H; [|done].
    destruct (add_to_total t1 mean I1) as [y1 E1].
    destruct (add_to_total t2 p90 I2) as [y2 E2].
    destruct (add_to_total t3 p95 I3) as [y3 E3].
    rewrite E1, E2, E3 in H. simpl in H.
    eapply IH; [| | |exact H]; right; by eexists.
Qed.

(** Over a number of lines that converts to a float, the average of a
    total is computed: the divisor is zero only when there is no line, and
    then the average is the [int] 0. *)
Lemma average_complete total n :
  total = Py.Int 0 ∨ (∃ x, total = Py.Float x) ->
  (Z.of_nat n < 2 ^ 1023)%Z ->
  ∃ a, average total n = Ok a.
Proof.
  intros Htotal Hn. unfold average.
  destruct (n =? 0)%nat eqn:E; [by eexists |].
  apply Nat.eqb_neq in E.
  destruct Htotal as [-> | [x ->]].
  - unfold Py.truediv, Py.int_truediv.
    destruct (Z.of_nat n =? 0)%Z eqn:E0; [apply Z.eqb_eq in E0; lia |].
    by eexists.
  - unfold Py.truediv. simpl.
    destruct (float_of_int_finite (Z.of_nat n)) as (m & e & ->); [lia |].
    by eexists.
Qed.

Lemma averages_complete lines :
  (Z.of_nat (length lines) < 2 ^ 1023)%Z ->
  Forall (λ line, ∃ row, parse_line line = Ok row) lines ->
  ∃ a b c, averages lines = Ok (a, b, c).
Proof.
  intros Hlen Hall. unfold averages.
  destruct (totals_complete lines (Py.Int 0) (Py.Int 0) (Py.Int 0))
    as (r1 & r2 & r3 & -> & I1 & I2 & I3); [by left.. | done |]. simpl.
  destruct (average_complete r1 _ I1 Hlen) as [a ->].
  destruct (average_complete r2 _ I2 Hlen) as [b ->].
  destruct (average_complete r3 _ I3 Hlen) as [c ->]. simpl.
  by exists a, b, c.
Qed.

(** The averages of a block raise nothing but the parse errors of its
    lines. *)
Lemma averages_raises lines e :
  (Z.of_nat (length lines) < 2 ^ 1023)%Z ->
  averages lines = Raise e -> e = ValueError ∨ e = IndexError.
Proof.
  intros Hlen. unfold averages.
  destruct (totals _ _ _ lines) as [[[r1 r2] r3]|e'] eqn:Ht; simpl.
  - assert (∀ r, r = Py.Int 0 ∨ (∃ x, r = Py.Float x) ->
                 ∃ a, average r (length lines) = Ok a) as Havg
      by (intros r I; by apply average_complete).
    destruct (totals_shape lines (Py.Int 0) (Py.Int 0) (Py.Int 0) r1 r2 r3)
      as (I1 & I2 & I3); [by left.. | done |].
    destruct (Havg r1 I1) as [a ->]. destruct (Havg r2 I2) as [b ->].
    destruct (Havg r3 I3) as [c ->]. done.
  - intros [= <-]. eapply totals_raises; [| | |exact Ht]; by left.
Qed.

End ShortBlocks.

Lemma length_iteration_lines s data k :
  length (iteration_lines s data k) = count s `min` (length data - k * count s).
Proof. by rewrite iteration_lines_take_drop, length_take, length_drop. Qed.

Lemma iteration_lines_Forall (P : string -> Prop) s data k :
  k < length (combinations s) ->
  Forall P (take (capacity s) data) -> Forall P (iteration_lines s data k).
Proof.
  intros Hk Hall. rewrite <- (iteration_lines_take s data k _ Hk).
  rewrite length_combinations, iteration_lines_take_drop.
  by apply Forall_take, Forall_drop.
Qed.

(** C5 (as amended).  With a repetition count below 2^1023 (so that a
    number of lines converts to a float), the aggregation phase raises
    nothing but the parse errors of the data lines, and so never a division
    by zero; when the data lines that the loop takes all parse, it
    completes, however few they are: each block is averaged over the lines
    it has, a block short of lines included; and an empty block has the
    averages 0, written 0.00. *)
Theorem rows_that_parse_complete (s : sweep) (all_lines : list string) (w : world) :
  (Z.of_nat (count s) < 2 ^ 1023)%Z ->
  let data := data_lines all_lines in
  let out := aggregate s all_lines w in
  out.1 ≠ Raise ZeroDivisionError
  ∧ (∀ e, out.1 = Raise e -> e = ValueError ∨ e = IndexError)
  ∧ (Forall (λ line, ∃ row, parse_line line = Ok row) (take (capacity s) data) ->
     out.1 = Ok ()
     ∧ ∀ k d f, combinations s !! k = Some (d, f) ->
         let lines := iteration_lines s data k in
         length lines = count s `min` (length data - k * count s)
         ∧ ∃ total_mean total_p90 total_p95 avg_mean avg_p90 avg_p95,
             totals (Py.Int 0) (Py.Int 0) (Py.Int 0) lines
             = Ok (total_mean, total_p90, total_p95)
             ∧ average total_mean (length lines) = Ok avg_mean
             ∧ average total_p90 (length lines) = Ok avg_p90
             ∧ average total_p95 (length lines) = Ok avg_p95
             ∧ averages lines = Ok (avg_mean, avg_p90, avg_p95))
  ∧ (∀ k d f, iteration_lines s data k = [] ->
       averages (iteration_lines s data k) = Ok (Py.Int 0, Py.Int 0, Py.Int 0)
       ∧ block_report s data k d f
         = Ok ("# datasize=" +:+ Py.str d +:+ " freq=" +:+ f
               +:+ " avg_mean=0.00 avg_p90=0.00 avg_p95=0.00" +:+ Py.nl +:+ Py.nl)).
Proof.
  intros Hcount data out.
  assert (∀ k, (Z.of_nat (length (iteration_lines s data k)) < 2 ^ 1023)%Z)
    as Hlen by (intros k; rewrite length_iteration_lines; lia).
  assert (∀ e, out.1 = Raise e -> e = ValueError ∨ e = IndexError) as Hraise.
  { intros e. unfold out. rewrite aggregate_reports. fold data. cbn [fst].
    destruct (reports s data 0 (combinations s)).2 as [e'|] eqn:Hr; [|done].
    intros [= ->].
    destruct (reports_raised s data _ 0 e Hr) as (d & f & _ & Hb).
    apply block_report_raise in Hb.
    eapply averages_raises; [apply Hlen | exact Hb]. }
  split_and!.
  - intros H. by destruct (Hraise _ H).
  - exact Hraise.
  - intros Hall.
    assert (∀ k, k < length (combinations s) ->
              ∃ a b c, averages (iteration_lines s data k) = Ok (a, b, c)) as Havg.
    { intros k Hk. apply averages_complete; [done |].
      by apply iteration_lines_Forall. }
    split.
    + unfold out. rewrite aggregate_reports. fold data. cbn [fst].
      destruct (reports s data 0 (combinations s)).2 as [e|] eqn:Hr; [|done].
      destruct (reports_raised s data _ 0 e Hr) as (d & f & Hc & Hb).
      apply block_report_raise in Hb. simpl in Hb.
      destruct (Havg _ (lookup_lt_Some _ _ _ Hc)) as (a & b & c & Ha).
      congruence.
    + intros k d f Hc lines. split; [apply length_iteration_lines |].
      destruct (Havg k (lookup_lt_Some _ _ _ Hc)) as (a & b & c & Ha).
      fold lines in Ha. pose proof Ha as Ha'. unfold averages in Ha'.
      destruct (totals _ _ _ lines) as [[[t1 t2] t3]|] eqn:Ht; simpl in Ha';
        [|done].
      destruct (average t1 _) as [a1|] eqn:H1; simpl in Ha'; [|done].
      destruct (average t2 _) as [a2|] eqn:H2; simpl in Ha'; [|done].
      destruct (average t3 _) as [a3|] eqn:H3; simpl in Ha'; [|done].
      injection Ha' as <- <- <-. by exists t1, t2, t3, a1, a2, a3.
  - intros k d f Hempty. unfold block_report. rewrite Hempty. by split.
Qed.

(** The theorem at the script's sweep and the sample input, whose three
    data lines leave the first block short and the eight others empty. *)
Lemma rows_that_parse_complete_sample :
  let s := script_sweep in
  let data := data_lines sample_lines in
  let out := aggregate s sample_lines empty_world in
  out.1 ≠ Raise ZeroDivisionError
  ∧ (∀ e, out.1 = Raise e -> e = ValueError ∨ e = IndexError)
  ∧ (Forall (λ line, ∃ row, parse_line line = Ok row) (take (capacity s) data) ->
     out.1 = Ok ()
     ∧ ∀ k d f, combinations s !! k = Some (d, f) ->
         let lines := iteration_lines s data k in
         length lines = count s `min` (length data - k * count s)
         ∧ ∃ total_mean total_p90 total_p95 avg_mean avg_p90 avg_p95,
             totals (Py.Int 0) (Py.Int 0) (Py.Int 0) lines
             = Ok (total_mean, total_p90, total_p95)
             ∧ average total_mean (length lines) = Ok avg_mean
             ∧ average total_p90 (length lines) = Ok avg_p90
             ∧ average total_p95 (length lines) = Ok avg_p95
             ∧ averages lines = Ok (avg_mean, avg_p90, avg_p95))
  ∧ (∀ k d f, iteration_lines s data k = [] ->
       averages (iteration_lines s data k) = Ok (Py.Int 0, Py.Int 0, Py.Int 0)
       ∧ block_report s data k d f
         = Ok ("# datasize=" +:+ Py.str d +:+ " freq=" +:+ f
               +:+ " avg_mean=0.00 avg_p90=0.00 avg_p95=0.00" +:+ Py.nl +:+ Py.nl)).
Proof.
  apply (rows_that_parse_complete script_sweep sample_lines empty_world).
  vm_compute. reflexivity.
Defined.

(** C5 as stated fails: an input short of lines still raises when one of
    its lines does not parse.  One data line, for the 45 the script's sweep
    takes, with a third column that is not a number or with two columns
    only, ends the aggregation phase with an exception. *)
Lemma short_input_can_raise :
  ( let all_lines := ["m1 5 n/a 2.5 3.5" +:+ Py.nl] in
    length (data_lines all_lines) < capacity script_sweep
    ∧ (aggregate script_sweep all_lines empty_world).1 = Raise ValueError )
  ∧
  ( let all_lines := ["m1 5" +:+ Py.nl] in
    length (data_lines all_lines) < capacity script_sweep
    ∧ (aggregate script_sweep all_lines empty_world).1 = Raise IndexError ).
Proof.
  cbv zeta. split; split; try (vm_compute; reflexivity); vm_compute; lia.
Qed.

(** ** Reading the report back *)

Section ReadBack.

Implicit Types s t l p : string.

Lemma no_break_app s t : no_break (s +:+ t) = no_break s && no_break t.
Proof.
  induction s as [|c s IH]; [done |].
  rewrite string_app_cons. simpl. rewrite IH. by rewrite !andb_assoc.
Qed.

Lemma all_digits_no_break s : all_digits s = true -> no_break s = true.
Proof.
  induction s as [|c s IH]; [done |]. simpl.
  intros [Hc Hs]%andb_true_iff. rewrite IH by done.
  destruct (Ascii.eqb_spec c "010") as [->|]; [done |].
  destruct (Ascii.eqb_spec c "013") as [->|]; done.
Qed.

(** A line without a break, then its newline, is read as one line. *)
Lemma readlines_line l rest :
  no_break l = true ->
  readlines ((l +:+ Py.nl) +:+ rest) = (l +:+ Py.nl) :: readlines rest.
Proof.
  induction l as [|c l IH]; [done |]. simpl.
  intros [[Hn Hr]%andb_true_iff Hl]%andb_true_iff.
  rewrite !string_app_cons. cbn [readlines].
  apply negb_true_iff in Hn, Hr. rewrite Hn, Hr. by rewrite IH.
Qed.

Lemma readlines_rows lines rest :
  Forall (λ line, no_break (Py.rstrip line) = true) lines ->
  readlines (cat (raw_line <$> lines) +:+ rest)
  = (raw_line <$> lines) ++ readlines rest.
Proof.
  induction 1 as [|line lines Hline _ IH]; [done |].
  rewrite fmap_cons, cat_cons, string_app_assoc. unfold raw_line at 1.
  rewrite readlines_line by done. by rewrite IH.
Qed.

(** Trimming on the right. *)
Lemma rstrip_app_space s c :
  Py.isspace c = true -> Py.rstrip (s +:+ String c "") = Py.rstrip s.
Proof.
  intros Hc. induction s as [|a s IH].
  - simpl. by rewrite Hc.
  - rewrite string_app_cons. simpl. by rewrite IH.
Qed.

Lemma rstrip_cons c s :
  Py.rstrip (String c s)
  = match Py.rstrip s with
    | EmptyString => if Py.isspace c then EmptyString else String c EmptyString
    | t => String c t
    end.
Proof. reflexivity. Qed.

Lemma rstrip_idem s : Py.rstrip (Py.rstrip s) = Py.rstrip s.
Proof.
  induction s as [|c s IH]; [done |]. rewrite rstrip_cons.
  destruct (Py.rstrip s) as [|a t] eqn:E.
  - destruct (Py.isspace c) eqn:Hc; [done |]. simpl. by rewrite Hc.
  - by rewrite rstrip_cons, IH.
Qed.

Lemma rstrip_decompose s :
  ∃ ws, s = Py.rstrip s +:+ ws ∧ all_space ws = true.
Proof.
  induction s as [|c s (ws & IH & Hws)]; [by exists "" |]. simpl.
  destruct (Py.rstrip s) as [|a t] eqn:E.
  - destruct (Py.isspace c) eqn:Hc.
    + exists (String c s). split; [done |].
      rewrite string_app_nil_l in IH. simpl. by rewrite Hc, IH.
    + exists ws. rewrite string_app_cons, string_app_nil_l.
      rewrite string_app_nil_l in IH. split; [by f_equal | done].
  - exists ws. rewrite string_app_cons. split; [by f_equal | done].
Qed.

Lemma rstrip_no_break_prefix s : no_break s = true -> no_break (Py.rstrip s) = true.
Proof.
  destruct (rstrip_decompose s) as (ws & E & _). intros H.
  rewrite E, no_break_app in H. by apply andb_true_iff in H as [? _].
Qed.

Lemma raw_line_rstrip l : Py.rstrip (raw_line l) = Py.rstrip l.
Proof.
  unfold raw_line, Py.nl. rewrite rstrip_app_space by done. apply rstrip_idem.
Qed.

Lemma prefix_app_space p : ∀ r ws,
  no_space p = true -> all_space ws = true ->
  String.prefix p (r +:+ ws) = String.prefix p r.
Proof.
  induction p as [|a p IH]; intros r ws Hp Hws.
  - by destruct r, ws.
  - simpl in Hp. apply andb_true_iff in Hp as [Ha Hp].
    apply negb_true_iff in Ha. destruct r as [|b r].
    + rewrite string_app_nil_l. destruct ws as [|c ws]; [done |]. simpl.
      simpl in Hws. apply andb_true_iff in Hws as [Hc _].
      destruct (ascii_dec a c) as [->|]; [congruence | done].
    + rewrite string_app_cons. simpl.
      destruct (ascii_dec a b); [by apply IH | done].
Qed.

(** A prefix without white space is seen on the line as written exactly
    when it is seen on the line as read. *)
Lemma startswith_raw_line l p :
  no_space p = true -> Py.startswith (raw_line l) p = Py.startswith l p.
Proof.
  intros Hp. unfold Py.startswith, raw_line.
  destruct (rstrip_decompose l) as (ws & E & Hws).
  rewrite (prefix_app_space p (Py.rstrip l) Py.nl) by done.
  rewrite E at 2. by rewrite prefix_app_space.
Qed.

(** A data line is one still when it is written to the report. *)
Lemma is_data_line_raw_line l : is_data_line (raw_line l) = is_data_line l.
Proof.
  unfold is_data_line, Py.strip.
  by rewrite raw_line_rstrip, !startswith_raw_line.
Qed.

Lemma data_lines_raw_lines lines :
  Forall (λ line, is_data_line line = true) lines ->
  data_lines (raw_line <$> lines) = raw_line <$> lines.
Proof.
  induction 1 as [|line lines Hline _ IH]; [done |].
  rewrite fmap_cons, data_lines_cons, is_data_line_raw_line, Hline.
  by rewrite IH.
Qed.

Lemma data_lines_all lines :
  Forall (λ line, is_data_line line = true) (data_lines lines).
Proof.
  apply Forall_forall. intros line Hin.
  by apply elem_of_data_lines in Hin as [_ ?].
Qed.

End ReadBack.

Section ReadBackReport.

(** What [readlines] returns: lines without a break, each but possibly
    the last one ended by a newline. *)
Lemma readlines_shape text :
  Forall (λ line, ∃ b, no_break b = true ∧ (line = b ∨ line = b +:+ Py.nl))
    (readlines text).
Proof.
  induction text as [|c r IH]; [constructor |]. cbn [readlines].
  destruct (Ascii.eqb c "010") eqn:En.
  { constructor; [|done]. exists "". split; [done | by right]. }
  destruct (Ascii.eqb c "013") eqn:Er.
  { destruct r as [|c' r'].
    - constructor; [|done]. exists "". split; [done | by right].
    - destruct (Ascii.eqb c' "010") eqn:En'.
      + cbn [readlines] in IH. rewrite En' in IH. exact IH.
      + constructor; [|done]. exists "". split; [done | by right]. }
  destruct (readlines r) as [|line lines].
  - constructor; [|done]. exists (String c ""). split; [|by left].
    simpl. by rewrite En, Er.
  - apply Forall_cons in IH as [(b & Hb & Hline) IH].
    constructor; [|done]. exists (String c b). split.
    + simpl. by rewrite En, Er.
    + destruct Hline as [-> | ->]; [by left | by right].
Qed.

Lemma readlines_no_break text :
  Forall (λ line, no_break (Py.rstrip line) = true) (readlines text).
Proof.
  eapply Forall_impl; [apply readlines_shape |].
  intros line (b & Hb & [-> | ->]).
  - by apply rstrip_no_break_prefix.
  - unfold Py.nl. rewrite rstrip_app_space by done.
    by apply rstrip_no_break_prefix.
Qed.

Lemma str_no_break z : no_break (Py.str z) = true.
Proof.
  destruct (str_digits z) as (d & -> & Hd & _).
  rewrite no_break_app, (all_digits_no_break d Hd). by destruct (z <? 0)%Z.
Qed.

Lemma format_2f_no_break a text :
  Py.format_2f a = Ok text -> no_break text = true.
Proof.
  unfold Py.format_2f. destruct (Py.to_float a) as [x|]; simpl; [|done].
  intros [= <-].
  assert (∀ neg h, no_break (Py.fixed2 neg h) = true) as Hfixed.
  { intros neg h. unfold Py.fixed2, Py.two_digits.
    rewrite !no_break_app. fold (Py.str (h `div` 100)). rewrite str_no_break.
    rewrite (all_digits_no_break (String _ (String _ ""))).
    - by destruct neg.
    - simpl. by rewrite !is_digit_pretty_N_char. }
  destruct x as [neg|[]| |neg m e]; simpl; auto.
Qed.

(** The summary is one comment line and one blank line. *)
Lemma summary_lines d f a b c sm :
  summary d f a b c = Ok sm -> no_break f = true ->
  ∃ body,
    sm = (body +:+ Py.nl) +:+ (("" +:+ Py.nl) +:+ "")
    ∧ no_break body = true
    ∧ Py.startswith (body +:+ Py.nl) "#" = true.
Proof.
  intros (m & p90 & p95 & Hm & H90 & H95 & ->)%summary_text Hf.
  exists ("# datasize=" +:+ Py.str d +:+ " freq=" +:+ f
          +:+ " avg_mean=" +:+ m +:+ " avg_p90=" +:+ p90 +:+ " avg_p95=" +:+ p95).
  split_and!.
  - by rewrite string_app_nil_l, string_app_nil_r, !string_app_assoc.
  - rewrite !no_break_app, str_no_break, Hf.
    by rewrite (format_2f_no_break _ _ Hm), (format_2f_no_break _ _ H90),
      (format_2f_no_break _ _ H95).
  - done.
Qed.

Lemma is_data_line_comment l : Py.startswith l "#" = true -> is_data_line l = false.
Proof.
  intros H. unfold is_data_line. rewrite H. simpl. by rewrite andb_false_r.
Qed.

Variable s : sweep.
Variable data : list string.
Hypothesis data_no_break : Forall (λ line, no_break (Py.rstrip line) = true) data.
Hypothesis data_kept : Forall (λ line, is_data_line line = true) data.

Lemma iteration_lines_sub (P : string -> Prop) k :
  Forall P data -> Forall P (iteration_lines s data k).
Proof.
  intros H. rewrite iteration_lines_take_drop. by apply Forall_take, Forall_drop.
Qed.

(** Reading back the rows and the summaries of the passes from number
    [i] on gives the rows. *)
Lemma read_back_blocks sms : ∀ i combos,
  length sms = length combos ->
  (∀ k sm, sms !! k = Some sm ->
     ∃ d f a b c, combos !! k = Some (d, f) ∧ no_break f = true
                  ∧ summary d f a b c = Ok sm) ->
  data_lines
    (readlines (cat (zip_with (λ k sm, cat (block_rows s data k) +:+ sm)
                       (seq i (length combos)) sms)))
  = concat (block_rows s data <$> seq i (length combos)).
Proof.
  induction sms as [|sm sms IH]; intros i [|[d f] combos] Hlen Hsm;
    try done.
  cbn [length seq zip_with fmap list_fmap concat].
  destruct (Hsm 0 sm eq_refl) as (d' & f' & a & b & c & _ & Hf & Hs).
  destruct (summary_lines _ _ _ _ _ _ Hs Hf) as (body & -> & Hbody & Hhash).
  rewrite cat_cons. unfold block_rows at 1.
  set (rest := cat (zip_with _ _ sms)).
  set (rows := raw_line <$> iteration_lines s data i).
  assert ((cat rows +:+ (body +:+ Py.nl) +:+ ("" +:+ Py.nl) +:+ "") +:+ rest
          = cat rows +:+ ((body +:+ Py.nl) +:+ (("" +:+ Py.nl) +:+ rest))) as ->.
  { generalize (body +:+ Py.nl) (cat rows) ("" +:+ Py.nl). intros x r y.
    by rewrite string_app_nil_r, !string_app_assoc. }
  unfold rows.
  rewrite readlines_rows by (by apply iteration_lines_sub).
  rewrite readlines_line by done.
  rewrite readlines_line by done.
  rewrite data_lines_app.
  rewrite data_lines_raw_lines by (by apply iteration_lines_sub).
  rewrite !data_lines_cons, (is_data_line_comment _ Hhash).
  change (is_data_line ("" +:+ Py.nl)) with false. cbv iota.
  f_equal. apply IH.
  - simpl in Hlen. lia.
  - intros k sm' Hk. destruct (Hsm (S k) sm' Hk) as (d0 & f0 & a0 & b0 & c0 & ?).
    by exists d0, f0, a0, b0, c0.
Qed.

Lemma read_back_report sms combos :
  length sms = length combos ->
  (∀ k sm, sms !! k = Some sm ->
     ∃ d f a b c, combos !! k = Some (d, f) ∧ no_break f = true
                  ∧ summary d f a b c = Ok sm) ->
  data_lines
    (readlines (header +:+
                cat (zip_with (λ k sm, cat (block_rows s data k) +:+ sm)
                       (seq 0 (length combos)) sms)))
  = concat (block_rows s data <$> seq 0 (length combos)).
Proof.
  intros Hlen Hsm.
  change header with
    (("msgid     " +:+ tab +:+ "n         " +:+ tab +:+ "mean      " +:+ tab
      +:+ "p90       " +:+ tab +:+ "p95       ") +:+ Py.nl).
  rewrite readlines_line by done.
  rewrite data_lines_cons.
  match goal with
  | |- (if is_data_line ?h then _ else _) = _ =>
      change (is_data_line h) with false
  end.
  cbv iota. by apply read_back_blocks.
Qed.

End ReadBackReport.

Lemma elem_of_product_snd {A B : Type} (xs : list A) (ys : list B) x y :
  (x, y) ∈ Py.product xs ys -> y ∈ ys.
Proof.
  unfold Py.product. intros (x' & H & _)%list_elem_of_bind.
  apply list_elem_of_bind in H as (y' & H & Hy).
  apply list_elem_of_singleton in H as [= _ ->]. done.
Qed.

(** C2 (as amended). When the aggregation phase completes, the report
    is the header followed, block by block, by the rows of the block and
    its summary; the rows of all blocks, one block after another, are the
    first D×F×count data lines in their order, each one right-trimmed and
    ended by a newline: all the data lines when there are at most
    D×F×count of them, and no line past that bound.  They are also what is
    read back from the report when its header, its comment lines and its
    blank lines are left out, for lines that were read from a file and
    frequencies without a line break in them. *)
Theorem blocks_hold_first_lines s all_lines w :
  (aggregate s all_lines w).1 = Ok () ->
  let data := data_lines all_lines in
  let n := length (combinations s) in
  ∃ report summaries,
    files (aggregate s all_lines w).2 !! "computed.out" = Some report
    ∧ length summaries = n
    ∧ (∀ k sm, summaries !! k = Some sm ->
         ∃ d f a b c,
           combinations s !! k = Some (d, f)
           ∧ averages (iteration_lines s data k) = Ok (a, b, c)
           ∧ summary d f a b c = Ok sm)
    ∧ report
      = header +:+
        cat (zip_with (λ k sm, cat (block_rows s data k) +:+ sm) (seq 0 n) summaries)
    ∧ concat (block_rows s data <$> seq 0 n) = raw_line <$> take (capacity s) data
    ∧ (length data ≤ capacity s ->
       concat (block_rows s data <$> seq 0 n) = raw_line <$> data)
    ∧ ((∃ text, all_lines = readlines text) ->
       Forall (λ freq, no_break freq = true) (frequencies s) ->
       data_lines (readlines report) = raw_line <$> take (capacity s) data).
Proof.
  intros Hok data n.
  assert (concat (block_rows s data <$> seq 0 n)
          = raw_line <$> take (capacity s) data) as Hrows.
  { rewrite block_rows_concat. unfold n. by rewrite length_combinations. }
  rewrite aggregate_reports in Hok. rewrite aggregate_reports.
  cbn [fst snd files] in *. fold data in Hok |- *.
  destruct (reports s data 0 (combinations s)).2 as [e|] eqn:Hr; [done |].
  destruct (reports_summaries s data _ 0 Hr) as (sms & Hlen & Hsm & ->).
  eexists _, sms. split_and!.
  - by rewrite lookup_insert_eq.
  - done.
  - exact Hsm.
  - done.
  - exact Hrows.
  - intros Hfit. by rewrite Hrows, take_ge.
  - intros [text ->] Hfreq. rewrite <- Hrows. apply read_back_report.
    + apply Forall_forall. intros line [Hin _]%elem_of_data_lines.
      by apply (proj1 (Forall_forall _ _) (readlines_no_break text)).
    + apply data_lines_all.
    + done.
    + intros k sm Hk. destruct (Hsm k sm Hk) as (d & f & a & b & c & Hc & _ & Hs).
      exists d, f, a, b, c. split_and!; [done | | done].
      apply (proj1 (Forall_forall _ _) Hfreq).
      apply list_elem_of_lookup_2 in Hc. by apply elem_of_product_snd in Hc.
Qed.

(** The theorem at a sample input. *)
Lemma blocks_hold_first_lines_sample :
  let s := script_sweep in
  let all_lines := readlines sample_output in
  let data := data_lines all_lines in
  let n := length (combinations s) in
  ∃ report summaries,
    files (aggregate s all_lines empty_world).2 !! "computed.out" = Some report
    ∧ length summaries = n
    ∧ (∀ k sm, summaries !! k = Some sm ->
         ∃ d f a b c,
           combinations s !! k = Some (d, f)
           ∧ averages (iteration_lines s data k) = Ok (a, b, c)
           ∧ summary d f a b c = Ok sm)
    ∧ report
      = header +:+
        cat (zip_with (λ k sm, cat (block_rows s data k) +:+ sm) (seq 0 n) summaries)
    ∧ concat (block_rows s data <$> seq 0 n) = raw_line <$> take (capacity s) data
    ∧ (length data ≤ capacity s ->
       concat (block_rows s data <$> seq 0 n) = raw_line <$> data)
    ∧ ((∃ text, all_lines = readlines text) ->
       Forall (λ freq, no_break freq = true) (frequencies s) ->
       data_lines (readlines report) = raw_line <$> take (capacity s) data).
Proof.
  apply (blocks_hold_first_lines script_sweep (readlines sample_output) empty_world).
  vm_compute. reflexivity.
Defined.

(** C2 as stated fails in two ways.  A data line that ends in blanks is
    written without them, so that the rows read back from the report (the
    header, the comments and the blank lines left out) are not the data
    lines; and with 46 data lines for the 45 that the script's sweep takes,
    the last one is in no block. *)
Lemma blocks_differ_from_input :
  ( let out := aggregate script_sweep sample_lines empty_world in
    let data := data_lines sample_lines in
    out.1 = Ok ()
    ∧ concat (block_rows script_sweep data
                <$> seq 0 (length (combinations script_sweep))) ≠ data
    ∧ data_lines (readlines (default "" (files out.2 !! "computed.out"))) ≠ data )
  ∧
  ( let all_lines := replicate 46 ("m1 5 1.5 2.5 3.5" +:+ Py.nl) in
    let out := aggregate script_sweep all_lines empty_world in
    let data := data_lines all_lines in
    out.1 = Ok ()
    ∧ data = all_lines
    ∧ concat (block_rows script_sweep data
                <$> seq 0 (length (combinations script_sweep)))
      = replicate 45 ("m1 5 1.5 2.5 3.5" +:+ Py.nl)
    ∧ data_lines (readlines (default "" (files out.2 !! "computed.out")))
      = replicate 45 ("m1 5 1.5 2.5 3.5" +:+ Py.nl) ).
Proof.
  cbv zeta. split; split_and!; try (vm_compute; reflexivity);
    vm_compute; discriminate.
Qed.


(** * Further properties of the script *)

(** ** The subprocesses and the lines printed *)

Section Processes.

Variable exec : program.

(** The command of the run for one pair of the sweep. *)
Lemma run_loop_console combos : ∀ template w,
  console (run_loop exec template combos w).2
  = console w ++
    ((λ p, "Running command: " +:+
           Py.join " " (set_dynamic_values template p.1 p.2)) <$> combos).
Proof.
  induction combos as [|[d f] combos IH]; intros template w.
  - simpl. by rewrite app_nil_r.
  - cbn [run_loop]. erewrite io_bind_ok; [|reflexivity].
    erewrite io_bind_ok; [|reflexivity].
    rewrite IH. cbn [files console spawned fmap list_fmap fst snd].
    rewrite <- app_assoc. do 2 f_equal.
    apply list_fmap_ext. intros _ [d' f'] _. cbn [fst snd].
    by rewrite set_dynamic_values_again.
Qed.

End Processes.

(** X1. The run phase prints every command as it runs it: the lines it
    prints are, for each pair of the sweep in order, "Running command: "
    followed by the words of the command started for that pair, joined by
    single spaces; the words printed for a pair are the command line that
    the subprocess of that pair is started with. *)
Theorem run_phase_prints_what_it_runs (exec : program) (a : args) (s : sweep)
    (w : world) :
  let commands :=
    (λ p, set_dynamic_values (command_template a s) p.1 p.2) <$> combinations s in
  spawned (run_phase exec a s w).2 = spawned w ++ commands
  ∧ console (run_phase exec a s w).2
    = console w ++ ((λ argv, "Running command: " +:+ Py.join " " argv) <$> commands)
  ∧ ∀ k datasize freq, combinations s !! k = Some (datasize, freq) ->
      (console (run_phase exec a s w).2) !! (length (console w) + k)
      = Some ("Running command: ./p2p_client_multi_streams_publish"
              +:+ " -start-index 1 -end-index 2 -ipfile " +:+ ipfile a
              +:+ " -topic topicA -count " +:+ Py.str (Z.of_nat (count s))
              +:+ " -sleep " +:+ freq +:+ " -datasize " +:+ Py.str datasize
              +:+ " -output " +:+ Py.str datasize +:+ "-" +:+ freq
              +:+ "-output.txt").
Proof.
  intros commands.
  assert (console (run_phase exec a s w).2
          = console w ++ ((λ argv, "Running command: " +:+ Py.join " " argv)
                            <$> commands)) as Hc.
  { unfold run_phase, commands. rewrite run_loop_console.
    by rewrite <- list_fmap_compose. }
  split_and!.
  - apply run_loop_spawned.
  - exact Hc.
  - intros k d f Hk. rewrite Hc, lookup_app_r by lia.
    replace (length (console w) + k - length (console w)) with k by lia.
    unfold commands. rewrite !list_lookup_fmap, Hk.
    reflexivity.
Qed.

(** ** The script as a whole *)

Lemma after_subprocesses_spawned exec a s w :
  spawned (after_subprocesses exec a s w)
  = spawned w
    ++ ((λ p, set_dynamic_values (command_template a s) p.1 p.2) <$> combinations s)
    ++ [command_process a].
Proof.
  unfold after_subprocesses. rewrite trace_phase_eq. cbn [snd spawned].
  unfold run_phase.
  by rewrite (proj2 (run_loop_spawned _ _ _ _)), <- app_assoc.
Qed.

Lemma after_subprocesses_console exec a s w :
  console (after_subprocesses exec a s w)
  = console w
    ++ ((λ p, "Running command: " +:+
              Py.join " " (set_dynamic_values (command_template a s) p.1 p.2))
          <$> combinations s)
    ++ ["Running command: " +:+ Py.join " " (command_process a)].
Proof.
  unfold after_subprocesses. rewrite trace_phase_eq. cbn [snd console].
  unfold run_phase. by rewrite run_loop_console, <- app_assoc.
Qed.

Lemma aggregate_raises s all_lines w e :
  (Z.of_nat (count s) < 2 ^ 1023)%Z ->
  (aggregate s all_lines w).1 = Raise e -> e = ValueError ∨ e = IndexError.
Proof.
  intros Hcount. rewrite aggregate_reports. cbn [fst].
  destruct (reports s _ 0 (combinations s)).2 as [e'|] eqn:Hr; [|done].
  intros [= ->].
  destruct (reports_raised s _ _ 0 e Hr) as (d & f & _ & Hb).
  apply block_report_raise in Hb.
  eapply averages_raises; [|exact Hb]. rewrite length_iteration_lines. lia.
Qed.

(** X2. Whatever the aggregation phase does, the script has started
    every subprocess by then: one publish client per pair of the sweep, in
    order, then the latency utility, once and last. *)
Theorem main_starts_every_subprocess (exec : program) (decode : decoder)
    (a : args) (s : sweep) (w : world) :
  spawned (main exec decode a s w).2
  = spawned w
    ++ ((λ p, set_dynamic_values (command_template a s) p.1 p.2) <$> combinations s)
    ++ [command_process a].
Proof.
  rewrite <- (after_subprocesses_spawned exec), main_cases.
  destruct (files (after_subprocesses exec a s w) !! "process.out")
    as [bytes|]; [|done].
  destruct (decode bytes) as [text|]; [|done].
  by rewrite aggregate_reports.
Qed.

(** X3. The outcome of the script is decided by the [process.out] that
    the subprocesses leave, which is the one there at the end.  When there
    is no such file the script raises [FileNotFoundError], and when its
    bytes do not decode it raises [UnicodeDecodeError]: in both cases the
    script has written to no file.  Otherwise the outcome is that of
    aggregating the lines of its text: the script completes, or (for a
    repetition count below 2^1023) raises the [ValueError] or the
    [IndexError] of a data line that does not parse. *)
Theorem main_outcome (exec : program) (decode : decoder) (a : args) (s : sweep)
    (w : world) :
  let out := main exec decode a s w in
  match files out.2 !! "process.out" with
  | None =>
      out.1 = Raise FileNotFoundError
      ∧ files out.2 = files (after_subprocesses exec a s w)
  | Some bytes =>
      match decode bytes with
      | None =>
          out.1 = Raise UnicodeDecodeError
          ∧ files out.2 = files (after_subprocesses exec a s w)
      | Some text =>
          (∀ w', out.1 = (aggregate s (readlines text) w').1)
          ∧ ((Z.of_nat (count s) < 2 ^ 1023)%Z ->
             out.1 = Ok () ∨ out.1 = Raise ValueError ∨ out.1 = Raise IndexError)
      end
  end.
Proof.
  intros out. unfold out. rewrite main_process_out, main_cases.
  destruct (files (after_subprocesses exec a s w) !! "process.out")
    as [bytes|]; [|done].
  destruct (decode bytes) as [text|]; [|done].
  split.
  - intros w'. by rewrite !aggregate_reports.
  - intros Hcount.
    destruct (aggregate s (readlines text) _).1 as [[]|e] eqn:E; [by left |].
    right. destruct (aggregate_raises _ _ _ _ Hcount E) as [-> | ->]; auto.
Qed.

(** Both ways of ending at the reading of [process.out] are there: a
    latency utility that removes the file, and one whose output is not
    text in the encoding of the locale; the report of an earlier run is
    then left as it was. *)
Lemma main_stops_at_the_reading :
  let w := {| files := {["computed.out" := "old report"]};
              console := []; spawned := [] |} in
  let ascii_only : decoder := λ bytes,
    if forallb (λ c, (N_of_ascii c <? 128)%N) (list_ascii_of_string bytes)
    then Some bytes else None in
  ( let out := main unlinker latin1 sample_args script_sweep w in
    out.1 = Raise FileNotFoundError
    ∧ files out.2 !! "computed.out" = Some "old report" )
  ∧
  ( let out := main (silent (String "255" "")) ascii_only sample_args
                 script_sweep w in
    out.1 = Raise UnicodeDecodeError
    ∧ files out.2 !! "computed.out" = Some "old report" ).
Proof. cbv zeta. split; split; vm_compute; reflexivity. Qed.

(** ** What the aggregation phase leaves alone *)

Lemma reports_length s data combos i :
  length (reports s data i combos).1 ≤ length combos.
Proof.
  revert i. induction combos as [|[d f] combos IH]; intros i; simpl; [done |].
  destruct (block_report s data i d f); simpl; [|lia].
  specialize (IH (S i)). destruct (reports s data (S i) combos). simpl in *. lia.
Qed.

Lemma reports_completed s data combos i :
  (reports s data i combos).2 = None <->
  length (reports s data i combos).1 = length combos.
Proof.
  revert i. induction combos as [|[d f] combos IH]; intros i; simpl; [done |].
  destruct (block_report s data i d f); simpl; [|done].
  specialize (IH (S i)). destruct (reports s data (S i) combos). simpl in *.
  rewrite IH. split; [by intros -> | by intros [= ->]].
Qed.

(** X4. The aggregation phase writes to [computed.out] and to nothing
    else: every other file is as it was and no subprocess is started.  The
    file holds the header and then, for the first passes of the sweep, as
    many as completed, what each one writes: the rows of its block and its
    summary.  The script prints one progress line for each of these
    passes, in the order of the sweep; their number is D×F exactly when
    the phase completes, and otherwise the next pass is the one that
    raised. *)
Theorem aggregate_frame (s : sweep) (all_lines : list string) (w : world) :
  let data := data_lines all_lines in
  let out := aggregate s all_lines w in
  (∀ name, name ≠ "computed.out" -> files out.2 !! name = files w !! name)
  ∧ spawned out.2 = spawned w
  ∧ ∃ written,
      files out.2 !! "computed.out" = Some (header +:+ cat written)
      ∧ (∀ i text, written !! i = Some text ->
           ∃ d f, combinations s !! i = Some (d, f)
                  ∧ block_report s data i d f
                    = Ok text)
      ∧ length written ≤ length (combinations s)
      ∧ console out.2
        = console w ++ (progress <$> take (length written) (combinations s))
      ∧ (out.1 = Ok () <-> length written = length (combinations s))
      ∧ (∀ e, out.1 = Raise e ->
           ∃ d f, combinations s !! length written = Some (d, f)
                  ∧ block_report s data (length written) d f = Raise e).
Proof.
  intros data out. unfold out. rewrite aggregate_reports. fold data.
  cbn [fst snd files spawned console].
  split_and!.
  - intros name Hne. by rewrite lookup_insert_ne.
  - done.
  - exists (reports s data 0 (combinations s)).1. split_and!.
    + by rewrite lookup_insert_eq.
    + intros i text Hi. by apply reports_lookup in Hi.
    + apply reports_length.
    + done.
    + rewrite <- reports_completed.
      by destruct (reports s _ 0 (combinations s)).2.
    + intros e He.
      destruct (reports s data 0 (combinations s)).2 as [e'|] eqn:Hr; [|done].
      injection He as ->. by apply reports_raised in Hr.
Qed.

(** ** Blocks by position *)

(** X5. The blocks are cut by position alone: the data line at position
    [p], below the capacity D×F×count, is in block [p / count] at the place
    [p mod count], and that block is one of the D×F; and when there are at
    least D×F×count data lines every block has [count] lines. *)
Theorem block_of_position (s : sweep) (data : list string) (p : nat)
    (line : string) :
  data !! p = Some line ->
  p < capacity s ->
  p / count s < length (combinations s)
  ∧ iteration_lines s data (p / count s) !! (p mod count s) = Some line
  ∧ (capacity s ≤ length data ->
     ∀ k, k < length (combinations s) ->
          length (iteration_lines s data k) = count s).
Proof.
  intros Hp Hcap. rewrite <- length_combinations in *.
  assert (count s ≠ 0) as Hc by (intros E; rewrite E in Hcap; lia).
  split_and!.
  - apply Nat.Div0.div_lt_upper_bound. lia.
  - rewrite iteration_lines_take_drop.
    rewrite lookup_take_lt by (by apply Nat.mod_upper_bound).
    rewrite lookup_drop. rewrite <- Hp. f_equal.
    rewrite (Nat.div_mod_eq p (count s)) at 3. lia.
  - intros Hfull k Hk. rewrite length_iteration_lines. nia.
Qed.

(** The theorem at the third data line of the sample input. *)
Lemma block_of_position_sample :
  let s := script_sweep in
  let data := data_lines sample_lines in
  2 / count s < length (combinations s)
  ∧ iteration_lines s data (2 / count s) !! (2 mod count s)
    = Some ("m3 5 1 2.25 3.125   " +:+ Py.nl)
  ∧ (capacity s ≤ length data ->
     ∀ k, k < length (combinations s) ->
          length (iteration_lines s data k) = count s).
Proof.
  apply (block_of_position script_sweep (data_lines sample_lines) 2
           ("m3 5 1 2.25 3.125   " +:+ Py.nl)).
  - reflexivity.
  - vm_compute. lia.
Defined.

(** ** No data line *)

Lemma iteration_lines_nil s k : iteration_lines s [] k = [].
Proof. by rewrite iteration_lines_take_drop, drop_nil, take_nil. Qed.

Lemma reports_nil s combos : ∀ i,
  reports s [] i combos
  = ((λ p, "# datasize=" +:+ Py.str p.1 +:+ " freq=" +:+ p.2
           +:+ " avg_mean=0.00 avg_p90=0.00 avg_p95=0.00" +:+ Py.nl +:+ Py.nl)
       <$> combos, None).
Proof.
  induction combos as [|[d f] combos IH]; intros i; [done |].
  cbn [reports]. unfold block_report at 1. rewrite iteration_lines_nil.
  cbn -[String.append]. by rewrite IH.
Qed.

(** X6. When no line of the input is a data line (an empty
    [process.out], or one of headers, comments and blank lines only), the
    aggregation phase completes, and the report is the header followed, for
    each pair of the sweep in order, by a summary with the three averages
    0.00 and a blank line. *)
Theorem no_data_line_report (s : sweep) (all_lines : list string) (w : world) :
  data_lines all_lines = [] ->
  let out := aggregate s all_lines w in
  out.1 = Ok ()
  ∧ files out.2 !! "computed.out"
    = Some (header +:+
            cat ((λ p, "# datasize=" +:+ Py.str p.1 +:+ " freq=" +:+ p.2
                       +:+ " avg_mean=0.00 avg_p90=0.00 avg_p95=0.00"
                       +:+ Py.nl +:+ Py.nl)
                 <$> combinations s))
  ∧ console out.2 = console w ++ (progress <$> combinations s).
Proof.
  intros Hnone out. unfold out. rewrite aggregate_reports, Hnone, reports_nil.
  cbn [fst snd files console]. split_and!; [done | by rewrite lookup_insert_eq |].
  by rewrite length_fmap, firstn_all.
Qed.

(** The theorem at an input of a header, a comment and a blank line. *)
Lemma no_data_line_report_sample :
  let all_lines := ["msgid n mean p90 p95" +:+ Py.nl; "# note" +:+ Py.nl; Py.nl] in
  let out := aggregate script_sweep all_lines empty_world in
  out.1 = Ok ()
  ∧ files out.2 !! "computed.out"
    = Some (header +:+
            cat ((λ p, "# datasize=" +:+ Py.str p.1 +:+ " freq=" +:+ p.2
                       +:+ " avg_mean=0.00 avg_p90=0.00 avg_p95=0.00"
                       +:+ Py.nl +:+ Py.nl)
                 <$> combinations script_sweep))
  ∧ console out.2 = console empty_world ++ (progress <$> combinations script_sweep).
Proof.
  apply (no_data_line_report script_sweep
           ["msgid n mean p90 p95" +:+ Py.nl; "# note" +:+ Py.nl; Py.nl]
           empty_world).
  reflexivity.
Defined.

(** ** Aggregating the report again *)

Section Again.

Lemma split_go_space ws : ∀ cur,
  all_space ws = true ->
  Py.split_go cur ws = if Py.truthy cur then [String.rev cur] else [].
Proof.
  induction ws as [|c ws IH]; intros cur; [done |]. simpl.
  intros [-> Hws]%andb_true_iff. rewrite (IH "" Hws). simpl. apply app_nil_r.
Qed.

Lemma split_go_app_space l ws : ∀ cur,
  all_space ws = true -> Py.split_go cur (l +:+ ws) = Py.split_go cur l.
Proof.
  induction l as [|c l IH]; intros cur Hws.
  - rewrite string_app_nil_l. by apply split_go_space.
  - rewrite string_app_cons. simpl. by rewrite !IH.
Qed.

(** The columns of a line as the report holds it are those of the line. *)
Lemma split_raw_line l : Py.split (raw_line l) = Py.split l.
Proof.
  unfold Py.split, raw_line.
  destruct (rstrip_decompose l) as (ws & E & Hws).
  rewrite (split_go_app_space (Py.rstrip l) Py.nl) by done.
  rewrite E at 2. by rewrite split_go_app_space.
Qed.

Lemma parse_line_raw_line l : parse_line (raw_line l) = parse_line l.
Proof. unfold parse_line. by rewrite split_raw_line. Qed.

Lemma totals_raw_lines lines : ∀ t1 t2 t3,
  totals t1 t2 t3 (raw_line <$> lines) = totals t1 t2 t3 lines.
Proof.
  induction lines as [|l lines IH]; intros t1 t2 t3; [done |].
  rewrite fmap_cons. cbn [totals]. rewrite parse_line_raw_line.
  destruct (parse_line l) as [[[m p90] p95]|]; [|done]. simpl.
  destruct (Py.add t1 _); [|done]. simpl.
  destruct (Py.add t2 _); [|done]. simpl.
  destruct (Py.add t3 _); [|done]. simpl.
  apply IH.
Qed.

Lemma averages_raw_lines lines : averages (raw_line <$> lines) = averages lines.
Proof. unfold averages. by rewrite totals_raw_lines, length_fmap. Qed.

Lemma raw_line_idem l : raw_line (raw_line l) = raw_line l.
Proof. unfold raw_line at 1. by rewrite raw_line_rstrip. Qed.

Lemma iteration_lines_fmap (g : string -> string) s data k :
  iteration_lines s (g <$> data) k = g <$> iteration_lines s data k.
Proof. by rewrite !iteration_lines_take_drop, fmap_take, fmap_drop. Qed.

Lemma block_report_raw_lines s data k d f :
  block_report s (raw_line <$> data) k d f = block_report s data k d f.
Proof.
  unfold block_report. rewrite iteration_lines_fmap, averages_raw_lines.
  rewrite <- list_fmap_compose.
  assert (raw_line ∘ raw_line <$> iteration_lines s data k
          = raw_line <$> iteration_lines s data k) as ->; [|done].
  apply list_fmap_ext. intros _ l _. apply raw_line_idem.
Qed.

Lemma reports_raw_lines s data combos : ∀ i,
  reports s (raw_line <$> data) i combos = reports s data i combos.
Proof.
  induction combos as [|[d f] combos IH]; intros i; [done |].
  cbn [reports]. by rewrite block_report_raw_lines, IH.
Qed.

(** The data lines read back from a completed report. *)
Lemma read_back_completed s data :
  Forall (λ line, no_break (Py.rstrip line) = true) data ->
  Forall (λ line, is_data_line line = true) data ->
  Forall (λ freq, no_break freq = true) (frequencies s) ->
  (reports s data 0 (combinations s)).2 = None ->
  data_lines (readlines (header +:+ cat (reports s data 0 (combinations s)).1))
  = raw_line <$> take (capacity s) data.
Proof.
  intros Hbreak Hkept Hfreq Hr.
  destruct (reports_summaries s data _ 0 Hr) as (sms & Hlen & Hsm & ->).
  rewrite read_back_report; try done.
  - by rewrite block_rows_concat, length_combinations.
  - intros k sm Hk. destruct (Hsm k sm Hk) as (d & f & a & b & c & Hc & _ & Hs).
    exists d, f, a, b, c. split_and!; [done | | done].
    apply (proj1 (Forall_forall _ _) Hfreq).
    apply list_elem_of_lookup_2 in Hc. by apply elem_of_product_snd in Hc.
Qed.

End Again.

(** X7. A report that the aggregation phase completed is a fixed point of
    that phase: read in place of [process.out] (its header and its
    comments are filtered out, its rows are kept), it is aggregated without
    an exception into the same report, for every input text and for
    frequencies without a line break in them. *)
Theorem report_aggregates_to_itself (s : sweep) (text : string) (w w' : world) :
  Forall (λ freq, no_break freq = true) (frequencies s) ->
  (aggregate s (readlines text) w).1 = Ok () ->
  ∃ report,
    files (aggregate s (readlines text) w).2 !! "computed.out" = Some report
    ∧ (aggregate s (readlines report) w').1 = Ok ()
    ∧ files (aggregate s (readlines report) w').2 !! "computed.out" = Some report.
Proof.
  intros Hfreq Hok. rewrite aggregate_reports in Hok |- *.
  cbn [fst snd files] in Hok |- *.
  set (data := data_lines (readlines text)) in *.
  destruct (reports s data 0 (combinations s)).2 as [e|] eqn:Hr; [done |].
  eexists. split; [by rewrite lookup_insert_eq |].
  rewrite aggregate_reports. cbn [fst snd files].
  rewrite read_back_completed; try done.
  - rewrite reports_raw_lines, reports_take, Hr.
    split; [done | by rewrite lookup_insert_eq].
  - apply Forall_forall. intros line [Hin _]%elem_of_data_lines.
    by apply (proj1 (Forall_forall _ _) (readlines_no_break text)).
  - apply data_lines_all.
Qed.

(** The theorem at the sample input. *)
Lemma report_aggregates_to_itself_sample :
  ∃ report,
    files (aggregate script_sweep (readlines sample_output) empty_world).2
      !! "computed.out" = Some report
    ∧ (aggregate script_sweep (readlines report) empty_world).1 = Ok ()
    ∧ files (aggregate script_sweep (readlines report) empty_world).2
        !! "computed.out" = Some report.
Proof.
  apply (report_aggregates_to_itself script_sweep sample_output
           empty_world empty_world).
  - repeat constructor.
  - vm_compute. reflexivity.
Defined.

(** ** Values that are not numbers *)

Section NotANumber.

Lemma add_nan_l x r :
  Py.add (Py.Float S754_nan) (Py.Float x) = Ok r -> r = Py.Float S754_nan.
Proof. simpl. intros [= <-]. by destruct x. Qed.

Lemma add_nan_r t r :
  Py.add t (Py.Float S754_nan) = Ok r -> r = Py.Float S754_nan.
Proof.
  destruct t as [z|x]; simpl.
  - destruct (Py.float_of_int z) as [y|]; simpl; [|done].
    intros [= <-]. by destruct y.
  - intros [= <-]. by destruct x.
Qed.

(** A total that is not a number, or to which such a value is added, is
    not a number at the end. *)
Lemma fold_add_nan values : ∀ t r,
  foldl (λ acc x, total ← acc; Py.add total (Py.Float x)) (Ok t) values = Ok r ->
  t = Py.Float S754_nan ∨ S754_nan ∈ values ->
  r = Py.Float S754_nan.
Proof.
  induction values as [|x values IH]; intros t r H Hnan.
  - simpl in H. injection H as <-.
    destruct Hnan as [-> | Hin]; [done | by apply elem_of_nil in Hin].
  - cbn [foldl] in H.
    change (Ok t ≫= λ total, Py.add total (Py.Float x))
      with (Py.add t (Py.Float x)) in H.
    destruct (Py.add t (Py.Float x)) as [u|e] eqn:Hadd.
    + apply (IH u r H).
      destruct Hnan as [-> | Hin].
      * left. by apply add_nan_l in Hadd.
      * apply elem_of_cons in Hin as [<- | Hin]; [|by right].
        left. by apply add_nan_r in Hadd.
    + exfalso. clear -H.
      induction values as [|y values IH]; [done | by apply IH].
Qed.

Lemma average_nan n a :
  average (Py.Float S754_nan) n = Ok a ->
  n ≠ 0 -> a = Py.Float S754_nan.
Proof.
  unfold average. intros H Hn.
  apply Nat.eqb_neq in Hn. rewrite Hn in H. simpl in H.
  destruct (Py.float_of_int (Z.of_nat n)) as [y|]; simpl in H; [|done].
  destruct (Py.is_zero y); [done |]. by injection H as <-.
Qed.

Lemma elem_of_rows lines rows line row :
  Forall2 (λ line row, parse_line line = Ok row) lines rows ->
  line ∈ lines -> parse_line line = Ok row -> row ∈ rows.
Proof.
  intros Hrows Hin Hp.
  apply list_elem_of_lookup in Hin as [i Hi].
  destruct (Forall2_lookup_l _ _ _ _ _ Hrows Hi) as (row' & Hrow & Hp').
  rewrite Hp in Hp'. injection Hp' as <-. by eapply list_elem_of_lookup_2.
Qed.

End NotANumber.

(** X8. A value that is not a number is not rejected: it goes through
    to the summary.  When a line of a block has [nan] in one of the three
    columns read and the averages of the block are computed, the average of
    that column is not a number, whatever the other lines hold, and the
    summary shows it as [nan]. *)
Theorem nan_reaches_the_average (lines : list string) (line : string)
    (mean p90 p95 : spec_float) (a b c : Py.num) :
  line ∈ lines ->
  parse_line line = Ok (mean, p90, p95) ->
  averages lines = Ok (a, b, c) ->
  (mean = S754_nan -> a = Py.Float S754_nan ∧ Py.format_2f a = Ok "nan")
  ∧ (p90 = S754_nan -> b = Py.Float S754_nan ∧ Py.format_2f b = Ok "nan")
  ∧ (p95 = S754_nan -> c = Py.Float S754_nan ∧ Py.format_2f c = Ok "nan").
Proof.
  intros Hin Hp H. unfold averages in H.
  destruct (totals _ _ _ lines) as [[[t1 t2] t3]|] eqn:Ht; simpl in H; [|done].
  destruct (average t1 _) as [a1|] eqn:H1; simpl in H; [|done].
  destruct (average t2 _) as [a2|] eqn:H2; simpl in H; [|done].
  destruct (average t3 _) as [a3|] eqn:H3; simpl in H; [|done].
  injection H as <- <- <-.
  destruct (totals_rows _ _ _ _ _ _ _ Ht) as (rows & Hrows & Hr1 & Hr2 & Hr3).
  pose proof (elem_of_rows _ _ _ _ Hrows Hin Hp) as Hrow.
  assert (length lines ≠ 0) as Hlen
    by (destruct lines; [by apply elem_of_nil in Hin | done]).
  split_and!; intros ->.
  - apply fold_add_nan in Hr1 as ->.
    + by apply average_nan in H1 as ->.
    + right. apply (list_elem_of_fmap_2 fst) in Hrow.
      by apply (list_elem_of_fmap_2 fst) in Hrow.
  - apply fold_add_nan in Hr2 as ->.
    + by apply average_nan in H2 as ->.
    + right. apply (list_elem_of_fmap_2 fst) in Hrow.
      by apply (list_elem_of_fmap_2 snd) in Hrow.
  - apply fold_add_nan in Hr3 as ->.
    + by apply average_nan in H3 as ->.
    + right. by apply (list_elem_of_fmap_2 snd) in Hrow.
Qed.

(** The theorem at a block of two lines, the first with [nan] as its
    mean. *)
Lemma nan_reaches_the_average_sample :
  let a := Py.Float S754_nan in
  let b := Py.Float (S754_finite false 4503599627370496 (-51)) in
  let c := Py.Float (S754_finite false 6755399441055744 (-51)) in
  (S754_nan = S754_nan -> a = Py.Float S754_nan ∧ Py.format_2f a = Ok "nan")
  ∧ (S754_finite false 4503599627370496 (-51) = S754_nan ->
     b = Py.Float S754_nan ∧ Py.format_2f b = Ok "nan")
  ∧ (S754_finite false 6755399441055744 (-51) = S754_nan ->
     c = Py.Float S754_nan ∧ Py.format_2f c = Ok "nan").
Proof.
  apply (nan_reaches_the_average ["m1 5 nan 2 3"; "m2 5 1 2 3"] "m1 5 nan 2 3").
  - apply list_elem_of_here.
  - vm_compute. reflexivity.
  - vm_compute. reflexivity.
Defined.

(** ** The first line that does not parse *)

Section FirstBadLine.

(** The loop over the lines of a block stops at the first line that does
    not parse, with the exception of that line. *)
Lemma totals_first_bad good : ∀ t1 t2 t3 line rest e,
  t1 = Py.Int 0 ∨ (∃ x, t1 = Py.Float x) ->
  t2 = Py.Int 0 ∨ (∃ x, t2 = Py.Float x) ->
  t3 = Py.Int 0 ∨ (∃ x, t3 = Py.Float x) ->
  Forall (λ l, ∃ row, parse_line l = Ok row) good ->
  parse_line line = Raise e ->
  totals t1 t2 t3 (good ++ line :: rest) = Raise e.
Proof.
  induction good as [|l good IH]; intros t1 t2 t3 line rest e I1 I2 I3 Hgood Hbad.
  - cbn [app totals]. by rewrite Hbad.
  - apply Forall_cons in Hgood as [[[[mean p90] p95] Hp] Hgood].
    cbn [app totals]. rewrite Hp. simpl.
    destruct (add_to_total t1 mean I1) as [y1 ->].
    destruct (add_to_total t2 p90 I2) as [y2 ->].
    destruct (add_to_total t3 p95 I3) as [y3 ->]. simpl.
    apply IH; [right; by eexists.. | done | done].
Qed.

Lemma averages_first_bad good line rest e :
  Forall (λ l, ∃ row, parse_line l = Ok row) good ->
  parse_line line = Raise e ->
  averages (good ++ line :: rest) = Raise e.
Proof.
  intros Hgood Hbad. unfold averages.
  by rewrite (totals_first_bad good _ _ _ line rest e) by (by left || done).
Qed.

Lemma block_report_completes s data k d f :
  (Z.of_nat (count s) < 2 ^ 1023)%Z ->
  Forall (λ l, ∃ row, parse_line l = Ok row) (iteration_lines s data k) ->
  ∃ text, block_report s data k d f = Ok text.
Proof.
  intros Hcount Hall.
  destruct (averages_complete (iteration_lines s data k)) as (a & b & c & Ha);
    [rewrite length_iteration_lines; lia | done |].
  destruct (summary_after_averages _ d f _ _ _ Ha) as [sm Hs].
  unfold block_report. rewrite Ha. simpl. rewrite Hs. by eexists.
Qed.

(** The passes stop at the first block that raises. *)
Lemma reports_first_raise s data combos : ∀ i k d f e,
  combos !! k = Some (d, f) ->
  block_report s data (i + k) d f = Raise e ->
  (∀ j d' f', j < k -> combos !! j = Some (d', f') ->
     ∃ text, block_report s data (i + j) d' f' = Ok text) ->
  (reports s data i combos).2 = Some e
  ∧ length (reports s data i combos).1 = k.
Proof.
  induction combos as [|[d0 f0] combos IH]; intros i k d f e Hk He Hbefore;
    [done |].
  cbn [reports]. destruct k as [|k].
  - injection Hk as -> ->. rewrite Nat.add_0_r in He. by rewrite He.
  - destruct (Hbefore 0 d0 f0) as [text Ht]; [lia | done |].
    rewrite Nat.add_0_r in Ht. rewrite Ht.
    destruct (IH (S i) k d f e) as [H1 H2].
    + done.
    + by rewrite Nat.add_succ_comm.
    + intros j d' f' Hj Hc. rewrite Nat.add_succ_comm.
      apply Hbefore; [lia | done].
    + destruct (reports s data (S i) combos). simpl in *. by rewrite H2.
Qed.

(** The block and the place of the data line at position [p]. *)
Lemma position_in_block s data p line :
  data !! p = Some line -> p < capacity s ->
  p / count s < length (combinations s)
  ∧ iteration_lines s data (p / count s) !! (p mod count s) = Some line.
Proof.
  intros Hp Hcap. rewrite <- length_combinations in Hcap.
  assert (count s ≠ 0) as Hc by (intros E; rewrite E in Hcap; lia).
  split.
  - apply Nat.Div0.div_lt_upper_bound. lia.
  - rewrite iteration_lines_take_drop.
    rewrite lookup_take_lt by (by apply Nat.mod_upper_bound).
    rewrite lookup_drop. rewrite <- Hp. f_equal.
    rewrite (Nat.div_mod_eq p (count s)) at 3. lia.
Qed.

(** The passes up to the first data line that does not parse. *)
Lemma reports_first_bad_line s data p line e :
  (Z.of_nat (count s) < 2 ^ 1023)%Z ->
  data !! p = Some line ->
  p < capacity s ->
  parse_line line = Raise e ->
  Forall (λ l, ∃ row, parse_line l = Ok row) (take p data) ->
  (reports s data 0 (combinations s)).2 = Some e
  ∧ length (reports s data 0 (combinations s)).1 = p / count s
  ∧ averages (iteration_lines s data (p / count s)) = Raise e.
Proof.
  intros Hcount Hp Hcap Hbad Hgood.
  destruct (position_in_block s data p line Hp Hcap) as [HK HJ].
  rewrite <- length_combinations in Hcap.
  assert (count s ≠ 0) as Hc by (intros E; rewrite E in Hcap; lia).
  pose proof (Nat.div_mod_eq p (count s)) as Hdm.
  pose proof (Nat.mod_upper_bound p (count s) Hc) as Hmod.
  set (K := p / count s) in *. set (J := p mod count s) in *.
  destruct (lookup_lt_is_Some_2 (combinations s) K HK) as [[d f] HcK].
  assert (∀ q l, q < p -> data !! q = Some l -> ∃ row, parse_line l = Ok row)
    as Hbefore.
  { intros q l Hq Hl. apply (proj1 (Forall_forall _ _) Hgood).
    apply list_elem_of_lookup. exists q. by rewrite lookup_take_lt. }
  assert (averages (iteration_lines s data K) = Raise e) as Havg.
  { rewrite <- (take_drop_middle _ _ _ HJ). apply averages_first_bad; [|done].
    apply Forall_forall. intros l Hl.
    apply list_elem_of_lookup in Hl as [j Hj].
    apply lookup_take_Some in Hj as [Hj HjJ].
    apply iteration_lines_lookup in Hj as [_ Hj].
    apply (Hbefore (K * count s + j) l); [nia | done]. }
  destruct (reports_first_raise s data (combinations s) 0 K d f e HcK)
    as [Hr Hlen].
  { by apply block_report_averages_raise. }
  { intros j d' f' Hj _. apply block_report_completes; [done |].
    apply Forall_forall. intros l Hl.
    apply list_elem_of_lookup in Hl as [i Hi].
    apply iteration_lines_lookup in Hi as [Hi Hl].
    apply (Hbefore (j * count s + i)); [nia | done]. }
  by split_and!.
Qed.

End FirstBadLine.

(** X9. The first data line that does not parse decides how the
    aggregation phase ends.  When the data line at position [p], below the
    capacity D×F×count, does not parse and every data line before it does
    (the repetition count being below 2^1023), the phase ends with the
    exception of that line; the report holds the header and the [p / count]
    blocks before the block of that line, each one as its pass writes it,
    and nothing of the block of that line, whose averages raise; and the
    script has printed the progress lines of those [p / count] passes. *)
Theorem first_bad_line_decides (s : sweep) (all_lines : list string) (w : world)
    (p : nat) (line : string) (e : exn) :
  (Z.of_nat (count s) < 2 ^ 1023)%Z ->
  data_lines all_lines !! p = Some line ->
  p < capacity s ->
  parse_line line = Raise e ->
  Forall (λ l, ∃ row, parse_line l = Ok row) (take p (data_lines all_lines)) ->
  let data := data_lines all_lines in
  let out := aggregate s all_lines w in
  out.1 = Raise e
  ∧ averages (iteration_lines s data (p / count s)) = Raise e
  ∧ ∃ written,
      length written = p / count s
      ∧ (∀ i text, written !! i = Some text ->
           ∃ d f, combinations s !! i = Some (d, f)
                  ∧ block_report s data i d f = Ok text)
      ∧ files out.2 !! "computed.out" = Some (header +:+ cat written)
      ∧ console out.2 = console w ++ (progress <$> take (p / count s) (combinations s)).
Proof.
  intros Hcount Hp Hcap Hbad Hgood data out. unfold out.
  fold data in Hp, Hgood.
  destruct (reports_first_bad_line s data p line e Hcount Hp Hcap Hbad Hgood)
    as (Hr & Hlen & Havg).
  rewrite aggregate_reports. fold data. cbn [fst snd files console].
  rewrite Hr. split_and!; [done | done |].
  exists (reports s data 0 (combinations s)).1. split_and!.
  - done.
  - intros i text Hi. by apply reports_lookup in Hi.
  - by rewrite lookup_insert_eq.
  - by rewrite Hlen.
Qed.

(** The theorem at the script's sweep and six data lines, of which the
    last one, in the second block, has two columns only. *)
Lemma first_bad_line_decides_sample :
  let all_lines :=
    replicate 5 ("m1 5 1.5 2.5 3.5" +:+ Py.nl) ++ ["m2 5" +:+ Py.nl] in
  let data := data_lines all_lines in
  let out := aggregate script_sweep all_lines empty_world in
  out.1 = Raise IndexError
  ∧ averages (iteration_lines script_sweep data (5 / count script_sweep))
    = Raise IndexError
  ∧ ∃ written,
      length written = 5 / count script_sweep
      ∧ (∀ i text, written !! i = Some text ->
           ∃ d f, combinations script_sweep !! i = Some (d, f)
                  ∧ block_report script_sweep data i d f = Ok text)
      ∧ files out.2 !! "computed.out" = Some (header +:+ cat written)
      ∧ console out.2
        = console empty_world
          ++ (progress <$> take (5 / count script_sweep) (combinations script_sweep)).
Proof.
  apply (first_bad_line_decides script_sweep
           (replicate 5 ("m1 5 1.5 2.5 3.5" +:+ Py.nl) ++ ["m2 5" +:+ Py.nl])
           empty_world 5 ("m2 5" +:+ Py.nl) IndexError).
  - vm_compute. reflexivity.
  - vm_compute. reflexivity.
  - vm_compute. lia.
  - vm_compute. reflexivity.
  - repeat (constructor; [eexists; vm_compute; reflexivity |]). constructor.
Defined.

(** ** Lines that start with white space *)

(** C10 (as amended). The two exclusions look at the line as read, not
    trimmed: a line whose first character is white space starts neither
    with "#" nor with "msgid", so it is a data line as soon as it is not
    blank.  It is parsed when it is one of the first D×F×count data lines
    and the passes get to its block: then the aggregation completes only
    if its columns 2 to 4 are there and numeric, and when the data lines
    before it all parse, its parse error is the exception that ends the
    run.  The line "  # comment" is kept, and does not parse. *)
Theorem leading_space_is_data (c : ascii) (rest : string) :
  Py.isspace c = true ->
  let line := String c rest in
  Py.startswith line "#" = false
  ∧ Py.startswith line "msgid" = false
  ∧ is_data_line line = Py.truthy (Py.strip line)
  ∧ (∀ all_lines, line ∈ all_lines -> Py.strip line ≠ "" ->
       line ∈ data_lines all_lines)
  ∧ (∀ s all_lines w p,
       data_lines all_lines !! p = Some line -> p < capacity s ->
       ((aggregate s all_lines w).1 = Ok () -> ∃ row, parse_line line = Ok row)
       ∧ (∀ e, (Z.of_nat (count s) < 2 ^ 1023)%Z ->
               parse_line line = Raise e ->
               Forall (λ l, ∃ row, parse_line l = Ok row)
                 (take p (data_lines all_lines)) ->
               (aggregate s all_lines w).1 = Raise e))
  ∧ is_data_line ("  # comment" +:+ Py.nl) = true
  ∧ parse_line ("  # comment" +:+ Py.nl) = Raise IndexError.
Proof.
  intros Hc line.
  assert (Py.startswith line "#" = false) as H1
    by (by apply isspace_not_prefix).
  assert (Py.startswith line "msgid" = false) as H2
    by (by apply isspace_not_prefix).
  split_and!; try done.
  - unfold is_data_line. rewrite H1, H2. simpl. by rewrite !andb_true_r.
  - intros all_lines Hin Hne.
    apply elem_of_data_lines. split; [done |].
    unfold is_data_line. rewrite H1, H2. simpl. rewrite !andb_true_r.
    by apply truthy_nonempty.
  - intros s all_lines w p Hp Hcap.
    set (data := data_lines all_lines) in *. split.
    + rewrite aggregate_reports. fold data. cbn [fst].
      destruct (reports s data 0 (combinations s)).2 as [e|] eqn:Hr; [done |].
      intros _. apply reports_completed in Hr.
      destruct (position_in_block s data p line Hp Hcap) as [HK HJ].
      rewrite <- Hr in HK.
      destruct (lookup_lt_is_Some_2 _ _ HK) as [text Htext].
      apply reports_lookup in Htext as (d & f & _ & Hb).
      apply block_report_ok in Hb as (a & b & c' & sm & Ha & _).
      eapply averages_parse; [exact Ha |].
      by eapply list_elem_of_lookup_2.
    + intros e Hcount Hbad Hgood.
      destruct (reports_first_bad_line s data p line e Hcount Hp Hcap Hbad Hgood)
        as (Hr & _).
      rewrite aggregate_reports. fold data. cbn [fst]. by rewrite Hr.
Qed.

(** The theorem at the line "  # comment". *)
Lemma leading_space_is_data_sample :
  let line := "  # comment" +:+ Py.nl in
  Py.startswith line "#" = false
  ∧ Py.startswith line "msgid" = false
  ∧ is_data_line line = Py.truthy (Py.strip line)
  ∧ (∀ all_lines, line ∈ all_lines -> Py.strip line ≠ "" ->
       line ∈ data_lines all_lines)
  ∧ (∀ s all_lines w p,
       data_lines all_lines !! p = Some line -> p < capacity s ->
       ((aggregate s all_lines w).1 = Ok () -> ∃ row, parse_line line = Ok row)
       ∧ (∀ e, (Z.of_nat (count s) < 2 ^ 1023)%Z ->
               parse_line line = Raise e ->
               Forall (λ l, ∃ row, parse_line l = Ok row)
                 (take p (data_lines all_lines)) ->
               (aggregate s all_lines w).1 = Raise e))
  ∧ is_data_line ("  # comment" +:+ Py.nl) = true
  ∧ parse_line ("  # comment" +:+ Py.nl) = Raise IndexError.
Proof.
  apply (leading_space_is_data " " (" # comment" +:+ Py.nl)).
  reflexivity.
Defined.

(** In a block, a line that starts with white space is parsed: the line
    "  # comment" ends the run, and a row of numbers after white space is
    averaged. *)
Lemma leading_space_in_a_block :
  (aggregate script_sweep ["  # comment" +:+ Py.nl] empty_world).1
  = Raise IndexError
  ∧ (aggregate script_sweep ["  m1 5 1.5 2.5 3.5" +:+ Py.nl] empty_world).1
    = Ok ()
  ∧ block_report script_sweep ["  m1 5 1.5 2.5 3.5" +:+ Py.nl] 0 3000 "0.5s"
    = Ok ("  m1 5 1.5 2.5 3.5" +:+ Py.nl
          +:+ "# datasize=3000 freq=0.5s avg_mean=1.50 avg_p90=2.50 avg_p95=3.50"
          +:+ Py.nl +:+ Py.nl).
Proof. split_and!; vm_compute; reflexivity. Qed.

(** C10 as stated fails: a line that starts with white space and is kept
    is not always parsed.  After the 45 data lines that the script's sweep
    takes, the line "  # comment" is a data line, in no block; it does not
    parse, and the aggregation completes. *)
Lemma leading_space_past_capacity_is_not_parsed :
  let line := "  # comment" +:+ Py.nl in
  let all_lines := replicate 45 ("m1 5 1.5 2.5 3.5" +:+ Py.nl) ++ [line] in
  is_data_line line = true
  ∧ data_lines all_lines !! 45 = Some line
  ∧ capacity script_sweep = 45
  ∧ (∀ k, k < length (combinations script_sweep) ->
          line ∉ iteration_lines script_sweep (data_lines all_lines) k)
  ∧ parse_line line = Raise IndexError
  ∧ (aggregate script_sweep all_lines empty_world).1 = Ok ().
Proof.
  cbv zeta. split_and!; try (vm_compute; reflexivity).
  intros k Hk.
  assert (k ∈ seq 0 9) as Hin by (apply elem_of_seq; vm_compute in Hk; lia).
  revert Hin. clear Hk. revert k. apply Forall_forall.
  repeat (constructor; [vm_compute; intros H; repeat (apply elem_of_cons in H as [H|H]; [discriminate |]); by apply elem_of_nil in H |]).
  constructor.
Qed.

(** ** The lines printed over the whole script *)

(** X10. What the script prints: one line with the command of each pair
    of the sweep, then the line with the command of the latency utility,
    then one progress line per pass of the aggregation that completed, in
    the order of the sweep; no progress line when [process.out] is missing
    or does not decode.  The passes that completed are those whose reports
    [computed.out] then holds after its header. *)
Theorem main_terminal (exec : program) (decode : decoder) (a : args) (s : sweep)
    (w : world) :
  let out := main exec decode a s w in
  let written :=
    match files out.2 !! "process.out" ≫= decode with
    | Some text => (reports s (data_lines (readlines text)) 0 (combinations s)).1
    | None => []
    end in
  console out.2
  = console w
    ++ ((λ p, "Running command: " +:+
              Py.join " " (set_dynamic_values (command_template a s) p.1 p.2))
          <$> combinations s)
    ++ ["Running command: python3 "
        +:+ "../../optimum-infra/utilities/compute-messages-latency-from-trace.py"
        +:+ " -i " +:+ tracefile a]
    ++ (progress <$> take (length written) (combinations s))
  ∧ (files out.2 !! "process.out" ≫= decode ≠ None ->
     files out.2 !! "computed.out" = Some (header +:+ cat written)).
Proof.
  intros out written. unfold written, out.
  rewrite main_process_out, main_cases.
  pose proof (after_subprocesses_console exec a s w) as Hc.
  destruct (files (after_subprocesses exec a s w) !! "process.out")
    as [bytes|]; cbn [mbind option_bind].
  - destruct (decode bytes) as [text|].
    + rewrite aggregate_reports. cbn [snd files console]. split.
      * by rewrite Hc, <- !app_assoc.
      * intros _. by rewrite lookup_insert_eq.
    + split; [|done]. cbn [snd]. by rewrite Hc.
  - split; [|done]. cbn [snd]. by rewrite Hc.
Qed.
